(** * nanobot: the MiniMax OAuth client and the Feishu channel

    A shallow embedding of [nanobot/oauth/minimax.py] and of the message
    paths of [nanobot/channels/feishu.py], with the properties of the
    design document stated over it.

    Conventions of the embedding.
    - Python values that come out of [json.loads] / [response.json()] are
      values of type [json]; Python numbers are exact rationals ([Q]), so
      the binary64 rounding of [poll_interval * 1.5] is not modelled.
    - Effects are explicit: a computation is a function from a [World]
      (clock, entropy source, HTTP peer, token file, event trace) to an
      outcome and the world it leaves behind.  A raised exception keeps the
      effects performed before it, as in Python.
    - The clock is logical: it moves only across [asyncio.sleep] and across
      HTTP round trips (by the latency the peer reports).
    - The HTTP client is [httpx], as the module imports it: a call that
      cannot be completed raises, and a response has [text] and [json()]
      but no attribute [ok], so that reading [response.ok] raises
      [AttributeError].
    - [print] calls only write to stdout and are left out; the evaluation of
      their arguments (which can raise [KeyError]) is kept. *)

From Stdlib Require Import String Ascii List ZArith QArith Qminmax Qround Bool.
From Stdlib Require Import Strings.Byte.
From Stdlib Require Import Lia Lqa.
Import ListNotations.

Set Warnings "-register-all".

Local Open Scope string_scope.
Local Open Scope Q_scope.

(** ** Python values and exceptions *)

Module Py.

Inductive json : Type :=
| JNull
| JBool (b : bool)
| JNum (q : Q)
| JStr (s : string)
| JArr (items : list json)
| JObj (fields : list (string * json)).

(** The exceptions the two modules can raise.  All of them are subclasses
    of [Exception], which is what the [except Exception] handlers catch. *)
Inductive exn : Type :=
| KeyError (key : json)
| TypeError
| AttributeError
| JSONDecodeError
| OSError                             (* open(...) failed *)
| TransportError                      (* httpx could not complete the call *)
| CodeRequestFailed (text : string)   (* "OAuth code request failed: ..." *)
| RefreshFailed (text : string)       (* "Token refresh failed: ..." *)
| OAuthFailed (message : json)        (* "OAuth failed: ..." *)
| OAuthTimeout.                       (* "OAuth timeout" *)

(** [d[k]] on a parsed object: the first binding of [k]. *)
Fixpoint lookup (fields : list (string * json)) (k : string) : option json :=
  match fields with
  | [] => None
  | (k', v) :: rest => if String.eqb k' k then Some v else lookup rest k
  end.

(** [d[k] = v]: an existing key keeps its position, a new one goes last. *)
Fixpoint assign (fields : list (string * json)) (k : string) (v : json)
  : list (string * json) :=
  match fields with
  | [] => [(k, v)]
  | (k', v') :: rest =>
      if String.eqb k' k then (k', v) :: rest else (k', v') :: assign rest k v
  end.

(** A value used as a number: [int], [float] and [bool] (a subclass of
    [int]) take part in arithmetic, everything else raises [TypeError]. *)
Definition as_num (j : json) : option Q :=
  match j with
  | JNum q => Some q
  | JBool true => Some 1
  | JBool false => Some 0
  | _ => None
  end.

(** [j == s] for a string literal [s]. *)
Definition eq_str (j : json) (s : string) : bool :=
  match j with
  | JStr t => String.eqb t s
  | _ => false
  end.

(** Truthiness of a value ([if v:] / [not v]). *)
Definition truthy (j : json) : bool :=
  match j with
  | JNull => false
  | JBool b => b
  | JNum q => negb (Qeq_bool q 0)
  | JStr s => negb (String.eqb s EmptyString)
  | JArr l => match l with [] => false | _ => true end
  | JObj l => match l with [] => false | _ => true end
  end.

End Py.
Import Py.

(** ** SHA-256

    [hashlib.sha256(...).hexdigest()] on byte strings, after FIPS 180-4,
    on 32-bit words held in [Z].  The general statements below take the
    digest as a parameter; the concrete runs use this one. *)

Module Sha256.
Local Open Scope Z_scope.

Definition mask (x : Z) : Z := x mod 2 ^ 32.
Definition add32 (x y : Z) : Z := mask (x + y).
Definition rotr (n x : Z) : Z :=
  Z.lor (Z.shiftr x n) (mask (Z.shiftl x (32 - n))).
Definition not32 (x : Z) : Z := Z.lxor x (2 ^ 32 - 1).

Definition Ch (e f g : Z) : Z := Z.lxor (Z.land e f) (Z.land (not32 e) g).
Definition Maj (a b c : Z) : Z :=
  Z.lxor (Z.lxor (Z.land a b) (Z.land a c)) (Z.land b c).
Definition Sigma0 (a : Z) : Z := Z.lxor (Z.lxor (rotr 2 a) (rotr 13 a)) (rotr 22 a).
Definition Sigma1 (e : Z) : Z := Z.lxor (Z.lxor (rotr 6 e) (rotr 11 e)) (rotr 25 e).
Definition sigma0 (x : Z) : Z := Z.lxor (Z.lxor (rotr 7 x) (rotr 18 x)) (Z.shiftr x 3).
Definition sigma1 (x : Z) : Z := Z.lxor (Z.lxor (rotr 17 x) (rotr 19 x)) (Z.shiftr x 10).

(** The first 64 primes; the round constants are the fractional parts of
    their cube roots, the initial state those of the square roots of the
    first eight. *)
Definition is_prime (n : nat) : bool :=
  forallb (fun d => negb (Nat.eqb (Nat.modulo n d) 0)) (seq 2 (n - 2)).
Definition primes : list Z := map Z.of_nat (filter is_prime (seq 2 310)).

(** Integer cube root by bisection on the bits [b-1 .. 0]. *)
Fixpoint icbrt (b : nat) (n r : Z) : Z :=
  match b with
  | O => r
  | S b' =>
      let c := r + 2 ^ Z.of_nat b' in
      icbrt b' n (if c * c * c <=? n then c else r)
  end.

Definition K : list Z := map (fun p => mask (icbrt 36 (p * 2 ^ 96) 0)) primes.
Definition H0 : list Z := map (fun p => mask (Z.sqrt (p * 2 ^ 64))) (firstn 8 primes).

Definition bytes_of (s : string) : list Z :=
  map (fun c => Z.of_nat (nat_of_ascii c)) (list_ascii_of_string s).

(** Big-endian encoding of [x] on [n] bytes. *)
Fixpoint be_bytes (n : nat) (x : Z) : list Z :=
  match n with
  | O => []
  | S n' => (Z.shiftr x (8 * Z.of_nat n')) mod 256 :: be_bytes n' x
  end.

Definition pad (msg : list Z) : list Z :=
  let len := Z.of_nat (length msg) in
  let zeros := Z.to_nat ((55 - len) mod 64) in
  msg ++ [128] ++ repeat 0 zeros ++ be_bytes 8 (8 * len).

Fixpoint words (n : nat) (bs : list Z) : list Z :=
  match n, bs with
  | S n', b0 :: b1 :: b2 :: b3 :: rest =>
      (((b0 * 256 + b1) * 256 + b2) * 256 + b3) :: words n' rest
  | _, _ => []
  end.

(** The message schedule, most recent word first. *)
Fixpoint schedule (n : nat) (rev_w : list Z) : list Z :=
  match n with
  | O => rev_w
  | S n' =>
      let w := add32 (add32 (sigma1 (nth 1 rev_w 0)) (nth 6 rev_w 0))
                     (add32 (sigma0 (nth 14 rev_w 0)) (nth 15 rev_w 0)) in
      schedule n' (w :: rev_w)
  end.

Definition state : Type := (Z * Z * Z * Z * Z * Z * Z * Z)%type.

Definition round (s : state) (kw : Z * Z) : state :=
  let '(a, b, c, d, e, f, g, h) := s in
  let t1 := add32 (add32 (add32 h (Sigma1 e)) (add32 (Ch e f g) (fst kw))) (snd kw) in
  let t2 := add32 (Sigma0 a) (Maj a b c) in
  (add32 t1 t2, a, b, c, add32 d t1, e, f, g).

Definition compress (s : state) (block : list Z) : state :=
  let w := rev (schedule 48 (rev block)) in
  let '(a, b, c, d, e, f, g, h) := fold_left round (combine K w) s in
  let '(a0, b0, c0, d0, e0, f0, g0, h0) := s in
  (add32 a0 a, add32 b0 b, add32 c0 c, add32 d0 d,
   add32 e0 e, add32 f0 f, add32 g0 g, add32 h0 h).

Fixpoint blocks (n : nat) (ws : list Z) (s : state) : state :=
  match n with
  | O => s
  | S n' => blocks n' (skipn 16 ws) (compress s (firstn 16 ws))
  end.

Definition initial : state :=
  match H0 with
  | [a; b; c; d; e; f; g; h] => (a, b, c, d, e, f, g, h)
  | _ => (0, 0, 0, 0, 0, 0, 0, 0)
  end.

Definition hex_digit (n : Z) : ascii :=
  match n with
  | 0 => "0" | 1 => "1" | 2 => "2" | 3 => "3" | 4 => "4" | 5 => "5"
  | 6 => "6" | 7 => "7" | 8 => "8" | 9 => "9" | 10 => "a" | 11 => "b"
  | 12 => "c" | 13 => "d" | 14 => "e" | _ => "f"
  end%char.

Fixpoint hex_word (n : nat) (x : Z) : string :=
  match n with
  | O => EmptyString
  | S n' => String (hex_digit ((Z.shiftr x (4 * Z.of_nat n')) mod 16)) (hex_word n' x)
  end.

(** [hashlib.sha256(s.encode()).hexdigest()]. *)
Definition hexdigest (s : string) : string :=
  let bs := pad (bytes_of s) in
  let n := Nat.div (length bs) 64 in
  let '(a, b, c, d, e, f, g, h) := blocks n (words (16 * n) bs) initial in
  String.concat EmptyString (map (hex_word 8) [a; b; c; d; e; f; g; h]).

End Sha256.

(** [a < b] on the clock. *)
Definition Qltb (a b : Q) : bool := negb (Qle_bool b a).

(** ** The MiniMax OAuth device-flow client *)

Module Minimax.

(** *** The world the client runs in *)

(** What the HTTP peer does with the n-th request: the call fails in
    transport, or a response comes back: [ok] tells whether its status is
    a success, [text] is its payload and [body] what [response.json()]
    yields ([None]: the payload is not JSON). *)
Inductive reply : Type :=
| NetDown (latency : Q)
| Resp (latency : Q) (ok : bool) (text : string) (body : option json).

Definition latency (r : reply) : Q :=
  match r with NetDown l => l | Resp l _ _ _ => l end.

(** A request as handed to [client.post]: the URL and the form fields, in
    the order of the dict given to [to_form_urlencoded]. *)
Record request : Type := mkRequest {
  url : string;
  form : list (string * json)
}.

Inductive event : Type :=
| EvSleep (seconds : Q)      (* await asyncio.sleep(seconds) *)
| EvPost (r : request).      (* await client.post(...) *)

(** The file at [TOKEN_FILE]. *)
Inductive file : Type :=
| NoDirectory                (* ~/.nanobot is not there either *)
| NoFile
| Unreadable                 (* exists, but json.load raises *)
| Stored (j : json).

Record World : Type := mkWorld {
  clock : Q;                 (* time.time() *)
  rng : nat -> byte;         (* the bytes os.urandom will hand out *)
  rng_pos : nat;             (* how many of them were consumed *)
  server : nat -> reply;     (* the provider's answer to the n-th request *)
  sent : nat;                (* requests issued so far *)
  token_file : file;
  trace : list event         (* sleeps and requests, oldest first *)
}.

(** *** Computations *)

Inductive outcome (A : Type) : Type :=
| Ret (a : A)                (* normal return *)
| Exc (e : exn)              (* an exception propagates *)
| Fuel.                      (* the loop budget of the model ran out *)
Arguments Ret {A} a.
Arguments Exc {A} e.
Arguments Fuel {A}.

Definition M (A : Type) : Type := World -> outcome A * World.

Definition ret {A} (a : A) : M A := fun w => (Ret a, w).
Definition raise {A} (e : exn) : M A := fun w => (Exc e, w).
Definition diverge {A} : M A := fun w => (Fuel, w).

Definition bind {A B} (m : M A) (k : A -> M B) : M B :=
  fun w =>
    match m w with
    | (Ret a, w') => k a w'
    | (Exc e, w') => (Exc e, w')
    | (Fuel, w') => (Fuel, w')
    end.

(** [try: m except Exception as e: h e]. *)
Definition try_except {A} (m : M A) (h : exn -> M A) : M A :=
  fun w =>
    match m w with
    | (Exc e, w') => h e w'
    | r => r
    end.

Declare Scope py_scope.
Delimit Scope py_scope with py.
Notation "x <- m ;; k" := (bind m (fun x => k))
  (at level 100, m at next level, right associativity) : py_scope.
Notation "m ;;; k" := (bind m (fun _ => k))
  (at level 100, right associativity) : py_scope.
Local Open Scope py_scope.

Definition lift {A} (o : option A) (e : exn) : M A :=
  match o with Some a => ret a | None => raise e end.

(** [j[k]]: [KeyError] on a dict without the key, [TypeError] on a value
    that is not a dict. *)
Definition getitem (j : json) (k : string) : M json :=
  match j with
  | JObj fields => lift (lookup fields k) (KeyError (JStr k))
  | _ => raise TypeError
  end.

(** [j.get(k, default)]: only dicts have the method. *)
Definition get (j : json) (k : string) (default : json) : M json :=
  match j with
  | JObj fields =>
      ret (match lookup fields k with Some v => v | None => default end)
  | _ => raise AttributeError
  end.

Definition number (j : json) : M Q := lift (as_num j) TypeError.

(** [time.time()]. *)
Definition time : M Q := fun w => (Ret (clock w), w).

(** [await asyncio.sleep(d)]: a non-positive delay only yields. *)
Definition sleep (d : Q) : M unit :=
  fun w =>
    (Ret tt,
     mkWorld (clock w + Qmax 0 d) (rng w) (rng_pos w) (server w) (sent w)
             (token_file w) (trace w ++ [EvSleep d])).

(** [os.urandom(n)]. *)
Definition urandom (n : nat) : M (list byte) :=
  fun w =>
    (Ret (map (rng w) (seq (rng_pos w) n)),
     mkWorld (clock w) (rng w) (rng_pos w + n) (server w) (sent w)
             (token_file w) (trace w)).

(** [await client.post(url, data=to_form_urlencoded(form), ...)]. *)
Definition post (u : string) (f : list (string * json)) : M reply :=
  fun w =>
    let r := server w (sent w) in
    let w' := mkWorld (clock w + latency r) (rng w) (rng_pos w) (server w)
                      (S (sent w)) (token_file w)
                      (trace w ++ [EvPost (mkRequest u f)]) in
    match r with
    | NetDown _ => (Exc TransportError, w')
    | Resp _ _ _ _ => (Ret r, w')
    end.

(** [response.ok]: an [httpx.Response] has no such attribute (the status
    is read with [is_success]), whatever the status of the response. *)
Definition response_ok (r : reply) : M bool := raise AttributeError.

Definition response_text (r : reply) : string :=
  match r with Resp _ _ t _ => t | NetDown _ => EmptyString end.

(** [response.json()]. *)
Definition response_json (r : reply) : M json :=
  match r with
  | Resp _ _ _ (Some j) => ret j
  | _ => raise JSONDecodeError
  end.

(** [os.path.exists(TOKEN_FILE)]. *)
Definition token_file_exists : M bool :=
  fun w =>
    (Ret (match token_file w with
          | NoDirectory | NoFile => false
          | Unreadable | Stored _ => true
          end), w).

(** [with open(TOKEN_FILE) as f: json.load(f)]. *)
Definition load_token_file : M json :=
  fun w =>
    match token_file w with
    | Stored j => (Ret j, w)
    | Unreadable => (Exc JSONDecodeError, w)
    | NoDirectory | NoFile => (Exc OSError, w)
    end.

(** [with open(TOKEN_FILE, "w") as f: json.dump(j, f, indent=2)]: nothing
    creates the directory, so without it [open] raises
    [FileNotFoundError]. *)
Definition dump_token_file (j : json) : M unit :=
  fun w =>
    match token_file w with
    | NoDirectory => (Exc OSError, w)
    | NoFile | Unreadable | Stored _ =>
        (Ret tt,
         mkWorld (clock w) (rng w) (rng_pos w) (server w) (sent w) (Stored j)
                 (trace w))
    end.

(** *** Constants of the module *)

Record oauth_config : Type := mkConfig {
  baseUrl : string;
  clientId : string
}.

(** [MINIMAX_OAUTH_CONFIG]: one entry per region. *)
Definition MINIMAX_OAUTH_CONFIG : list (string * oauth_config) :=
  [("cn", mkConfig "https://api.minimaxi.com"
                   "78257093-7e40-4613-99e0-527b14b39113");
   ("global", mkConfig "https://api.minimax.io"
                       "78257093-7e40-4613-99e0-527b14b39113")].

Fixpoint config_lookup (table : list (string * oauth_config)) (r : string)
  : option oauth_config :=
  match table with
  | [] => None
  | (k, c) :: rest => if String.eqb k r then Some c else config_lookup rest r
  end.

(** [MINIMAX_OAUTH_CONFIG[region]]: [KeyError] for a key that is not in
    the table, [TypeError] for an unhashable one. *)
Definition config_for (region : json) : M oauth_config :=
  match region with
  | JStr r => lift (config_lookup MINIMAX_OAUTH_CONFIG r) (KeyError region)
  | JArr _ | JObj _ => raise TypeError
  | _ => raise (KeyError region)
  end.

Definition MINIMAX_OAUTH_SCOPE : string := "group_id profile model.completion".
Definition MINIMAX_OAUTH_GRANT_TYPE : string :=
  "urn:ietf:params:oauth:grant-type:user_code".

(** [bytes.hex()]: two lower-case hexadecimal digits per byte. *)
Definition hex_digit (n : N) : ascii :=
  match n with
  | 0 => "0" | 1 => "1" | 2 => "2" | 3 => "3" | 4 => "4" | 5 => "5"
  | 6 => "6" | 7 => "7" | 8 => "8" | 9 => "9" | 10 => "a" | 11 => "b"
  | 12 => "c" | 13 => "d" | 14 => "e" | _ => "f"
  end%N%char.

Definition hex_of_byte (b : byte) : string :=
  let n := Byte.to_N b in
  String (hex_digit (N.div n 16)) (String (hex_digit (N.modulo n 16)) EmptyString).

Fixpoint hex (bs : list byte) : string :=
  match bs with
  | [] => EmptyString
  | b :: rest => hex_of_byte b ++ hex rest
  end.

(** [to_form_urlencoded(data)] on a dict of strings:
    ["&".join(f"{k}={v}" for k, v in data.items())]. *)
Fixpoint to_form_urlencoded (data : list (string * string)) : string :=
  match data with
  | [] => EmptyString
  | (k, v) :: rest =>
      match rest with
      | [] => k ++ "=" ++ v
      | _ => k ++ "=" ++ v ++ "&" ++ to_form_urlencoded rest
      end
  end.

(** Reading [bytes.hex()] back: the value of a hexadecimal digit and the
    byte of a pair of them. *)
Definition unhex_digit (c : ascii) : option N :=
  let n := N_of_ascii c in
  if ((48 <=? n) && (n <=? 57))%N then Some (n - 48)%N
  else if ((97 <=? n) && (n <=? 102))%N then Some (n - 87)%N
  else None.

Fixpoint unhex (s : string) : option (list byte) :=
  match s with
  | EmptyString => Some []
  | String a (String b rest) =>
      match unhex_digit a, unhex_digit b, unhex rest with
      | Some x, Some y, Some bs =>
          match Byte.of_N (16 * x + y) with
          | Some byte => Some (byte :: bs)
          | None => None
          end
      | _, _, _ => None
      end
  | String _ EmptyString => None
  end.

Section Client.

(** [hashlib.sha256(s.encode()).hexdigest()], taken from the library. *)
Variable sha256_hex : string -> string.

Definition generate_pkce : M (string * string * string) :=
  v <- urandom 32 ;;
  let verifier := hex v in
  let challenge := sha256_hex verifier in
  s <- urandom 16 ;;
  let state := hex s in
  ret (verifier, challenge, state).

Definition request_oauth_code (region : json) : M json :=
  config <- config_for region ;;
  p <- generate_pkce ;;
  let '(verifier, challenge, state) := p in
  response <- post (baseUrl config ++ "/oauth/code")
                   [("response_type", JStr "code");
                    ("client_id", JStr (clientId config));
                    ("scope", JStr MINIMAX_OAUTH_SCOPE);
                    ("code_challenge", JStr challenge);
                    ("code_challenge_method", JStr "S256");
                    ("state", JStr state)] ;;
  ok <- response_ok response ;;
  if negb ok
  then raise (CodeRequestFailed (response_text response))
  else response_json response.

Definition poll_oauth_token (user_code : json) (verifier : string)
    (region : json) : M json :=
  config <- config_for region ;;
  response <- post (baseUrl config ++ "/oauth/token")
                   [("grant_type", JStr MINIMAX_OAUTH_GRANT_TYPE);
                    ("client_id", JStr (clientId config));
                    ("user_code", user_code);
                    ("code_verifier", JStr verifier)] ;;
  response_json response.

(** The [while time.time() < expire_time] loop of [login_minimax].  The
    interval is still the raw value of the initiate response on the first
    turn; [asyncio.sleep] is where a value that is not a number raises. *)
Fixpoint poll_loop (fuel : nat) (user_code : json) (verifier : string)
    (region : json) (expire_time : Q) (poll_interval : json) : M json :=
  match fuel with
  | O => diverge
  | S fuel' =>
      now <- time ;;
      if Qltb now expire_time then
        d <- number poll_interval ;;
        sleep d ;;;
        result <- poll_oauth_token user_code verifier region ;;
        status <- get result "status" JNull ;;
        if eq_str status "success" then
          access <- getitem result "access_token" ;;
          refresh <- getitem result "refresh_token" ;;
          expires <- getitem result "expired_in" ;;
          ret (JObj [("access", access); ("refresh", refresh);
                     ("expires", expires); ("region", region)])
        else if eq_str status "error" then
          message <- get result "message" JNull ;;
          raise (OAuthFailed message)
        else
          poll_loop fuel' user_code verifier region expire_time
                    (JNum (Qmin (d * (3 # 2)) 10))
      else raise OAuthTimeout
  end.

Definition login_minimax (fuel : nat) (region : json) : M json :=
  oauth <- request_oauth_code region ;;
  _ <- getitem oauth "verification_uri" ;;
  user_code <- getitem oauth "user_code" ;;
  p <- generate_pkce ;;
  let verifier := fst (fst p) in
  now <- time ;;
  expires_in <- get oauth "expires_in" (JNum 300) ;;
  window <- number expires_in ;;
  let expire_time := now + window in
  poll_interval <- get oauth "interval" (JNum 2) ;;
  poll_loop fuel user_code verifier region expire_time poll_interval.

Definition refresh_access_token (refresh_token : json) (region : json)
  : M json :=
  config <- config_for region ;;
  response <- post (baseUrl config ++ "/oauth/token")
                   [("grant_type", JStr "refresh_token");
                    ("client_id", JStr (clientId config));
                    ("refresh_token", refresh_token)] ;;
  ok <- response_ok response ;;
  if negb ok
  then raise (RefreshFailed (response_text response))
  else response_json response.

(** [class MiniMaxOAuthToken]. *)
Record MiniMaxOAuthToken : Type := mkToken {
  access : json;
  refresh : json;
  expires : json;
  expires_at : Q
}.

(** [__init__] and [is_expired] each read [time.time()]; on the logical
    clock the two readings of one call agree, and the sum and the
    difference are exact where the code rounds to binary64. *)
Definition MiniMaxOAuthToken_init (a r e : json) : M MiniMaxOAuthToken :=
  now <- time ;;
  lifetime <- number e ;;
  ret (mkToken a r e (now + lifetime)).

Definition is_expired (t : MiniMaxOAuthToken) : M bool :=
  now <- time ;;
  ret (Qle_bool (expires_at t - 60) now).

(** The body of the [try] in [get_minimax_access_token]. *)
Definition refresh_and_store (token : MiniMaxOAuthToken) (token_data : json)
  : M json :=
  region <- get token_data "region" (JStr "cn") ;;
  result <- refresh_access_token (refresh token) region ;;
  a <- getitem result "access_token" ;;
  r <- getitem result "refresh_token" ;;
  e <- getitem result "expired_in" ;;
  match token_data with
  | JObj fields =>
      let updated :=
        JObj (assign (assign (assign fields "access" a) "refresh" r)
                     "expires" e) in
      dump_token_file updated ;;;
      getitem updated "access"
  | _ => raise TypeError
  end.

(** The last three lines of [get_minimax_access_token]. *)
Definition login_and_store (fuel : nat) : M json :=
  token_data <- login_minimax fuel (JStr "cn") ;;
  dump_token_file token_data ;;;
  getitem token_data "access".

Definition get_minimax_access_token (fuel : nat) (force_refresh : bool)
  : M json :=
  present <- token_file_exists ;;
  if present && negb force_refresh then
    token_data <- load_token_file ;;
    a <- getitem token_data "access" ;;
    r <- getitem token_data "refresh" ;;
    e <- getitem token_data "expires" ;;
    token <- MiniMaxOAuthToken_init a r e ;;
    expired <- is_expired token ;;
    if negb expired then ret (access token)
    else
      refreshed <- try_except
                     (v <- refresh_and_store token token_data ;; ret (Some v))
                     (fun _ => ret None) ;;
      match refreshed with
      | Some v => ret v
      | None => login_and_store fuel
      end
  else login_and_store fuel.

(** *** Reading a run *)

(** The request of [poll_oauth_token]. *)
Definition poll_request (c : oauth_config) (user_code : json)
    (verifier : string) : request :=
  mkRequest (baseUrl c ++ "/oauth/token")
            [("grant_type", JStr MINIMAX_OAUTH_GRANT_TYPE);
             ("client_id", JStr (clientId c));
             ("user_code", user_code);
             ("code_verifier", JStr verifier)].

(** The request of [request_oauth_code]. *)
Definition code_request (c : oauth_config) (challenge state : string)
  : request :=
  mkRequest (baseUrl c ++ "/oauth/code")
            [("response_type", JStr "code");
             ("client_id", JStr (clientId c));
             ("scope", JStr MINIMAX_OAUTH_SCOPE);
             ("code_challenge", JStr challenge);
             ("code_challenge_method", JStr "S256");
             ("state", JStr state)].

(** The request of [refresh_access_token]. *)
Definition refresh_request (c : oauth_config) (refresh_token : json)
  : request :=
  mkRequest (baseUrl c ++ "/oauth/token")
            [("grant_type", JStr "refresh_token");
             ("client_id", JStr (clientId c));
             ("refresh_token", refresh_token)].

(** The events of a run of the loop that slept [ds] in turn. *)
Definition poll_events (rq : request) (ds : list Q) : list event :=
  flat_map (fun d => [EvSleep d; EvPost rq]) ds.


(** [os.urandom] bytes number [from] to [from + n - 1] of the world. *)
Definition drawn (w : World) (from n : nat) : list byte :=
  map (rng w) (seq from n).

(** What a computation leaves alone besides clock, counter and trace. *)
Definition same_store (w w' : World) : Prop :=
  token_file w' = token_file w /\ server w' = server w /\ rng w' = rng w.

(** How [request_oauth_code] and [refresh_access_token] end once their
    request is out: in transport, or at [response.ok]. *)
Definition ok_verdict (r : reply) : outcome json :=
  match r with
  | NetDown _ => Exc TransportError
  | Resp _ _ _ _ => Exc AttributeError
  end.

(** The world after [generate_pkce]: 32 + 16 bytes of entropy are gone. *)
Definition after_pkce (w : World) : World :=
  mkWorld (clock w) (rng w) (rng_pos w + 32 + 16) (server w) (sent w)
          (token_file w) (trace w).

(** The world after one round trip. *)
Definition after_post (w : World) (rq : request) : World :=
  mkWorld (clock w + latency (server w (sent w))) (rng w) (rng_pos w)
          (server w) (S (sent w)) (token_file w) (trace w ++ [EvPost rq]).

Definition grant_type (rq : request) : json :=
  match lookup (form rq) "grant_type" with Some g => g | None => JNull end.

(** A refresh attempt is a request with [grant_type=refresh_token]; a
    device-flow login attempt starts with a request to [/oauth/code], the
    only one that carries a [code_challenge]. *)
Definition is_refresh (rq : request) : bool :=
  eq_str (grant_type rq) "refresh_token".

Definition is_initiate (rq : request) : bool :=
  match lookup (form rq) "code_challenge" with Some _ => true | None => false end.

(** Time that passes between two calls. *)
Definition elapse (dt : Q) (w : World) : World :=
  mkWorld (clock w + dt) (rng w) (rng_pos w) (server w) (sent w)
          (token_file w) (trace w).

(** The entries of the two regions; [cn] is the default one. *)
Definition cn : oauth_config :=
  mkConfig "https://api.minimaxi.com" "78257093-7e40-4613-99e0-527b14b39113".

Definition intl : oauth_config :=
  mkConfig "https://api.minimax.io" "78257093-7e40-4613-99e0-527b14b39113".

(** A stored credential that the code itself finds valid: the file holds
    the three fields and [is_expired] answers [False] on the token built
    from them. *)
Definition stored_valid (w : World) (a : json) : Prop :=
  exists fields r e tok,
    token_file w = Stored (JObj fields) /\
    lookup fields "access" = Some a /\
    lookup fields "refresh" = Some r /\
    lookup fields "expires" = Some e /\
    MiniMaxOAuthToken_init a r e w = (Ret tok, w) /\
    is_expired tok w = (Ret false, w).

(** A stored credential that the code finds expired, with the outcome of
    the refresh attempt made for it. *)
Definition stored_expired (w : World) (fields : list (string * json))
    (tok : MiniMaxOAuthToken) : Prop :=
  token_file w = Stored (JObj fields) /\
  lookup fields "access" = Some (access tok) /\
  lookup fields "refresh" = Some (refresh tok) /\
  lookup fields "expires" = Some (expires tok) /\
  MiniMaxOAuthToken_init (access tok) (refresh tok) (expires tok) w
    = (Ret tok, w) /\
  is_expired tok w = (Ret true, w).

(** The region a stored record names ([token_data.get("region", "cn")]). *)
Definition stored_region (fields : list (string * json)) : json :=
  match lookup fields "region" with Some v => v | None => JStr "cn" end.

Definition posts (evs : list event) : list request :=
  flat_map (fun e => match e with EvPost r => [r] | EvSleep _ => [] end) evs.

(** How many refresh attempts and how many login attempts a stretch of
    the trace holds. *)
Definition refresh_attempts (evs : list event) : nat :=
  length (filter is_refresh (posts evs)).

Definition login_attempts (evs : list event) : nat :=
  length (filter is_initiate (posts evs)).



End Client.

End Minimax.

(** ** The Feishu channel: inbound handler and outbound [send] *)

Module Feishu.

(** *** String operations of [str]

    A Python [str] is modelled by a [string] of characters with codes below
    256. *)

(** [sub in s]. *)
Fixpoint contains (sub s : string) : bool :=
  if String.prefix sub s then true
  else match s with
       | EmptyString => false
       | String _ rest => contains sub rest
       end.

(** [s.replace(old, new)] for a non-empty [old]: occurrences are found from
    the left and do not overlap; [skip] counts the characters of a match
    still to be dropped. *)
Fixpoint replace_from (skip : nat) (old new s : string) : string :=
  match s with
  | EmptyString => EmptyString
  | String c rest =>
      match skip with
      | S k => replace_from k old new rest
      | O =>
          if String.prefix old s
          then new ++ replace_from (String.length old - 1)%nat old new rest
          else String c (replace_from 0 old new rest)
      end
  end.

Definition replace (s old new : string) : string := replace_from 0 old new s.

(** [c.isspace()] on the modelled range. *)
Definition is_space (c : ascii) : bool :=
  let n := nat_of_ascii c in
  (((9 <=? n) && (n <=? 13)) || ((28 <=? n) && (n <=? 32))
   || (n =? 133) || (n =? 160))%nat.

Fixpoint lstrip (s : string) : string :=
  match s with
  | EmptyString => EmptyString
  | String c rest => if is_space c then lstrip rest else s
  end.

Fixpoint rstrip (s : string) : string :=
  match s with
  | EmptyString => EmptyString
  | String c rest =>
      match rstrip rest with
      | EmptyString => if is_space c then EmptyString else String c EmptyString
      | kept => String c kept
      end
  end.

(** [s.strip()]. *)
Definition strip (s : string) : string := rstrip (lstrip s).

Definition lower_char (c : ascii) : ascii :=
  let n := nat_of_ascii c in
  if (((65 <=? n) && (n <=? 90)) || ((192 <=? n) && (n <=? 214))
      || ((216 <=? n) && (n <=? 222)))%nat
  then ascii_of_nat (n + 32)%nat else c.

(** [s.lower()]. *)
Fixpoint lower (s : string) : string :=
  match s with
  | EmptyString => EmptyString
  | String c rest => String (lower_char c) (lower rest)
  end.

(** [s.split(sep)[-1]] for a one-character [sep]: what follows its last
    occurrence, the whole of [s] when there is none. *)
Fixpoint after_last (sep : ascii) (s : string) : string :=
  match s with
  | EmptyString => EmptyString
  | String c rest =>
      if Ascii.eqb c sep && negb (contains (String sep EmptyString) rest)
      then rest
      else if contains (String sep EmptyString) rest then after_last sep rest
      else s
  end.

(** [os.path.join(a, b)] on a POSIX system. *)
Definition path_join (a b : string) : string :=
  if String.prefix "/" b then b
  else if String.eqb a EmptyString then b
  else if String.eqb (after_last "/" a) EmptyString
          && contains "/" a
       then a ++ b
       else a ++ "/" ++ b.

(** [os.path.basename(p)]. *)
Definition basename (p : string) : string := after_last "/" p.

(** *** The SDK and the file system *)

Inductive sdk_call : Type :=
| ResourceGet (message_id : string) (file_key : json) (type : string)
| ImageCreate (path : string)
| FileCreate (file_type file_name path : string)
| MessageCreate (receive_id msg_type : string) (content : json).

(** What the SDK does with the n-th call: it raises, or a response comes
    back with its success flag and its payload (the [image_key] or
    [file_key] of an upload, the bytes of a download). *)
Inductive sdk_reply : Type :=
| SdkRaises
| SdkResponse (success : bool) (payload : json).

Inductive entry : Type :=
| Called (c : sdk_call) (r : sdk_reply)
| Wrote (path : string).

Record World : Type := mkWorld {
  sdk : nat -> sdk_reply;        (* the answer to the n-th SDK call *)
  calls : nat;                   (* SDK calls made so far *)
  on_disk : string -> bool;      (* os.path.exists *)
  writable : string -> bool;     (* open(path, "wb") succeeds *)
  log : list entry               (* SDK calls and file writes, oldest first *)
}.

(** One blocking SDK call. *)
Definition call_sdk (c : sdk_call) (w : World) : sdk_reply * World :=
  let r := sdk w (calls w) in
  (r, mkWorld (sdk w) (S (calls w)) (on_disk w) (writable w)
              (log w ++ [Called c r])).

(** [with open(path, "wb") as f: f.write(...)], where [open] succeeds. *)
Definition write_file (path : string) (w : World) : World :=
  mkWorld (sdk w) (calls w)
          (fun p => if String.eqb p path then true else on_disk w p)
          (writable w)
          (log w ++ [Wrote path]).

(** *** Messages *)

(** The fields of [data.event] the handler reads. *)
Record raw_event : Type := mkEvent {
  ev_message_id : string;
  ev_chat_id : string;
  ev_message_type : string;
  ev_content : string;
  ev_sender_open_id : string
}.

(** Modelled from the spec: the arguments of [BaseChannel._handle_message]
    (the class is not among the sources), which make up the InboundMessage
    of the data model. *)
Record InboundMessage : Type := mkInbound {
  in_sender_id : string;
  in_chat_id : string;
  in_content : json;
  in_metadata : list (string * string);
  in_media : list string
}.

(** Modelled from the spec: [nanobot.bus.events.OutboundMessage] (not among
    the sources), with the three fields [send] reads. *)
Record OutboundMessage : Type := mkOutbound {
  chat_id : string;
  content : string;
  media : list string
}.

(** What the callback did with an event. *)
Inductive handled : Type :=
| Forwarded (m : InboundMessage)   (* scheduled on the main loop *)
| Dropped                          (* sender not allowed *)
| Raised (e : exn).                (* the callback raised *)

Section Channel.

(** [json.loads], from the library ([None]: it raises). *)
Variable json_loads : string -> option json.
(** [BaseChannel.is_allowed] (the class is not among the sources). *)
Variable is_allowed : string -> bool.
(** [tempfile.gettempdir()]. *)
Variable tempdir : string.

(** [FeishuChannel._download_file]; [import lark_oapi] and [os.makedirs]
    are taken to succeed.
    The result is [inl e] when the method raises (outside its own [try]),
    [inr None] / [inr (Some path)] when it returns.  Inside the [try] the
    SDK call can raise or answer without success, and [open] can raise on
    a path that cannot be written (a directory, a missing or protected
    parent): each of them ends in [None], with nothing written. *)
Definition _download_file (message_id : string) (file_key : json)
    (resource_type : string) (file_name : json) (w : World)
  : (exn + option string) * World :=
  let download_dir := path_join tempdir "nanobot_downloads" in
  let named : exn + string :=
    if negb (truthy file_name) then
      match file_key with
      | JStr k =>
          inr (if String.eqb resource_type "image" then k ++ ".jpg" else k)
      | _ => inl TypeError
      end
    else
      match file_name with
      | JStr n => inr n
      | _ => inl TypeError
      end in
  match named with
  | inl e => (inl e, w)
  | inr name =>
      let file_path := path_join download_dir name in
      let '(r, w1) :=
        call_sdk (ResourceGet message_id file_key resource_type) w in
      match r with
      | SdkRaises => (inr None, w1)
      | SdkResponse false _ => (inr None, w1)
      | SdkResponse true _ =>
          if writable w1 file_path
          then (inr (Some file_path), write_file file_path w1)
          else (inr None, w1)
      end
  end.

(** [d.get(k)] on the decoded payload. *)
Definition field (fields : list (string * json)) (k : string) : json :=
  match lookup fields k with Some v => v | None => JNull end.

(** The [try] block of the callback: [inl tt] when anything in it raises,
    else the text and the media it arrived at. *)
Definition decode_content (message_id msg_type content_str : string)
    (w : World) : (unit + json * list string) * World :=
  match json_loads content_str with
  | Some (JObj fields) =>
      let text :=
        match lookup fields "text" with
        | Some v => v
        | None => JStr EmptyString
        end in
      let '(file_key, file_name, resource_type) :=
        if String.eqb msg_type "image" then
          (field fields "image_key", JNull, Some "image")
        else if String.eqb msg_type "file" then
          (field fields "file_key", field fields "file_name", Some "file")
        else if String.eqb msg_type "media" then
          (field fields "file_key", field fields "file_name", Some "media")
        else if String.eqb msg_type "audio" then
          (field fields "file_key", JNull, Some "file")
        else (JNull, JNull, None) in
      match resource_type with
      | Some rt =>
          if truthy file_key then
            match _download_file message_id file_key rt file_name w with
            | (inl _, w1) => (inl tt, w1)
            | (inr None, w1) => (inr (text, []), w1)
            | (inr (Some file_path), w1) =>
                let text' :=
                  if negb (truthy text) then
                    JStr ("[" ++ msg_type ++ "] " ++
                          match file_name with
                          | JStr n =>
                              if String.eqb n EmptyString then "file" else n
                          | _ => "file"
                          end)
                  else text in
                (inr (text', [file_path]), w1)
            end
          else (inr (text, []), w)
      | None => (inr (text, []), w)
      end
  | _ => (inl tt, w)
  end.

(** [if "@_all" in text: text = text.replace("@_all", "").strip()], and
    the slice [text[:50]] of the log line that follows.  The membership
    test raises on a value that is not a container, [replace] on a
    container that is not a string, the slice on a dict. *)
Definition strip_mention (text : json) : exn + json :=
  match text with
  | JStr s =>
      if contains "@_all" s then inr (JStr (strip (replace s "@_all" EmptyString)))
      else inr text
  | JArr items =>
      if existsb (fun j => eq_str j "@_all") items then inl AttributeError
      else inr text
  | JObj fields =>
      match lookup fields "@_all" with
      | Some _ => inl AttributeError
      | None => inl TypeError
      end
  | _ => inl TypeError
  end.

(** The callback [do_p2_im_message_receive_v1]. *)
Definition do_p2_im_message_receive_v1 (ev : raw_event) (w : World)
  : handled * World :=
  let content_str := ev_content ev in
  let '(decoded, w1) :=
    decode_content (ev_message_id ev) (ev_message_type ev) content_str w in
  let '(text, media) :=
    match decoded with
    | inr tm => tm
    | inl _ => (JStr content_str, [])
    end in
  match strip_mention text with
  | inl e => (Raised e, w1)
  | inr text' =>
      let sender_id := ev_sender_open_id ev in
      if is_allowed sender_id then
        (Forwarded
           (mkInbound sender_id (ev_chat_id ev) text'
              [("message_id", ev_message_id ev);
               ("chat_id", ev_chat_id ev);
               ("msg_type", ev_message_type ev);
               ("sender_id", sender_id)]
              media),
         w1)
      else (Dropped, w1)
  end.

(** The key an upload hands back: the call went through, the response is
    a success, and the key it carries is truthy. *)
Definition uploaded_key (r : sdk_reply) : option json :=
  match r with
  | SdkResponse true k => if truthy k then Some k else None
  | _ => None
  end.

(** [FeishuChannel._upload_image]. *)
Definition _upload_image (file_path : string) (w : World)
  : option json * World :=
  if negb (on_disk w file_path) then (None, w)
  else
    let '(r, w1) := call_sdk (ImageCreate file_path) w in
    match r with
    | SdkResponse true k => (Some k, w1)
    | _ => (None, w1)
    end.

(** [FeishuChannel._upload_file], with its default [file_type]. *)
Definition _upload_file (file_path : string) (w : World)
  : option json * World :=
  if negb (on_disk w file_path) then (None, w)
  else
    let file_name := basename file_path in
    let '(r, w1) := call_sdk (FileCreate "stream" file_name file_path) w in
    match r with
    | SdkResponse true k => (Some k, w1)
    | _ => (None, w1)
    end.

(** The extension test of [send]. *)
Definition message_kind (file_path : string) : string :=
  let ext := if contains "." file_path
             then after_last "." (lower file_path)
             else EmptyString in
  if existsb (String.eqb ext) ["jpg"; "jpeg"; "png"; "gif"]
  then "image" else "file".

(** One turn of the [for file_path in msg.media] loop. *)
Definition send_item (receive_id file_path : string) (w : World) : World :=
  let msg_type := message_kind file_path in
  let '(key, w1) :=
    if String.eqb msg_type "image" then _upload_image file_path w
    else _upload_file file_path w in
  match key with
  | Some k =>
      if truthy k then
        let content_dict :=
          JObj [(if String.eqb msg_type "image" then "image_key"
                 else "file_key", k)] in
        snd (call_sdk (MessageCreate receive_id msg_type content_dict) w1)
      else w1
  | None => w1
  end.

Fixpoint send_media (receive_id : string) (paths : list string) (w : World)
  : World :=
  match paths with
  | [] => w
  | p :: rest => send_media receive_id rest (send_item receive_id p w)
  end.

(** [FeishuChannel.send]; [api_client] says whether [self._api_client] is
    set, [lark_installed] whether [import lark_oapi] succeeds. *)
Definition send (api_client lark_installed : bool) (msg : OutboundMessage)
    (w : World) : World :=
  if negb api_client then w
  else if negb lark_installed then w
  else
    let receive_id := chat_id msg in
    let w1 :=
      if negb (String.eqb (content msg) EmptyString) then
        snd (call_sdk (MessageCreate receive_id "text"
                         (JObj [("text", JStr (content msg))])) w)
      else w in
    send_media receive_id (media msg) w1.

(** *** Reading a run *)

(** The message-type tags of the vendor boundary. *)
Definition recognized (msg_type : string) : bool :=
  existsb (String.eqb msg_type) ["text"; "image"; "file"; "media"; "audio"].

(** The key of the resource an event names: the [image_key] of an image,
    the [file_key] of a file, a media or an audio message, [None] (as
    [get] gives it) for a payload without the field and for every other
    tag.  Only an event with a truthy key is downloaded. *)
Definition resource_key (msg_type : string) (fields : list (string * json))
  : json :=
  if String.eqb msg_type "image" then field fields "image_key"
  else if existsb (String.eqb msg_type) ["file"; "media"; "audio"]
       then field fields "file_key"
       else JNull.

(** The [text] field of a decoded payload, as the callback reads it. *)
Definition text_field (fields : list (string * json)) : json :=
  match lookup fields "text" with
  | Some v => v
  | None => JStr EmptyString
  end.

(** A text with the broadcast mention taken out. *)
Definition without_mention (text : json) : json :=
  match text with
  | JStr s =>
      if contains "@_all" s
      then JStr (strip (replace s "@_all" EmptyString))
      else text
  | _ => text
  end.

(** The upload [send] makes for a path, and the field its key goes in. *)
Definition upload_call (file_path : string) : sdk_call :=
  if String.eqb (message_kind file_path) "image"
  then ImageCreate file_path
  else FileCreate "stream" (basename file_path) file_path.

Definition key_field (file_path : string) : string :=
  if String.eqb (message_kind file_path) "image" then "image_key"
  else "file_key".

(** Delivery of a media list, item by item and in order: an item that is
    not on disk costs no call; an item whose upload does not yield a key
    costs the upload alone; any other item is its upload followed at once
    by its own message-create call, which carries the key. *)
Inductive delivery (receive_id : string) (disk : string -> bool)
  : list string -> list entry -> Prop :=
| delivery_done : delivery receive_id disk [] []
| delivery_missing p ps evs :
    disk p = false ->
    delivery receive_id disk ps evs ->
    delivery receive_id disk (p :: ps) evs
| delivery_failed p ps evs r :
    disk p = true ->
    uploaded_key r = None ->
    delivery receive_id disk ps evs ->
    delivery receive_id disk (p :: ps) (Called (upload_call p) r :: evs)
| delivery_sent p ps evs r k r' :
    disk p = true ->
    uploaded_key r = Some k ->
    delivery receive_id disk ps evs ->
    delivery receive_id disk (p :: ps)
      (Called (upload_call p) r ::
       Called (MessageCreate receive_id (message_kind p)
                 (JObj [(key_field p, k)])) r' :: evs).

(** The uploads among some log entries, and the message-create calls. *)
Definition uploads (evs : list entry) : list sdk_call :=
  flat_map (fun e => match e with
                     | Called (ImageCreate p) _ => [ImageCreate p]
                     | Called (FileCreate t n p) _ => [FileCreate t n p]
                     | _ => []
                     end) evs.

Definition creates (evs : list entry) : list sdk_call :=
  flat_map (fun e => match e with
                     | Called (MessageCreate i t c) _ => [MessageCreate i t c]
                     | _ => []
                     end) evs.

End Channel.

End Feishu.

(** * Concrete runs: worlds and events *)

Module Scenario.
Import Minimax.

(** An entropy source that hands out the bytes 0, 1, 2, ... in turn. *)
Definition counting_bytes (n : nat) : byte :=
  match Byte.of_nat (Nat.modulo n 256) with
  | Some b => b
  | None => x00
  end.

(** Provider responses. *)
Definition initiate_ok (interval : Q) : reply :=
  Resp 0 true EmptyString
       (Some (JObj [("verification_uri", JStr "https://example.test/verify");
                    ("user_code", JStr "UC");
                    ("expires_in", JNum 300);
                    ("interval", JNum interval)])).

Definition poll_pending : reply :=
  Resp 0 true EmptyString (Some (JObj [("status", JStr "pending")])).

Definition poll_success : reply :=
  Resp 0 true EmptyString
       (Some (JObj [("status", JStr "success");
                    ("access_token", JStr "A");
                    ("refresh_token", JStr "R");
                    ("expired_in", JNum 3600)])).

Definition refresh_denied : reply := Resp 0 false "denied" None.

(** Scenario C of the design document: three pending polls, then success. *)
Definition three_pending (n : nat) : reply :=
  match n with
  | 0%nat => initiate_ok 2
  | 1%nat | 2%nat | 3%nat => poll_pending
  | _ => poll_success
  end.

(** A provider that grants the login at the first poll. *)
Definition quick (n : nat) : reply :=
  match n with
  | 0%nat => initiate_ok 2
  | _ => poll_success
  end.

(** A provider that turns the refresh down, then serves a login. *)
Definition refresh_down (n : nat) : reply :=
  match n with
  | 0%nat => refresh_denied
  | 1%nat => initiate_ok 2
  | _ => poll_success
  end.

(** A stored credential. *)
Definition credential (lifetime : Q) (region : string)
  : list (string * json) :=
  [("access", JStr "A0"); ("refresh", JStr "R0");
   ("expires", JNum lifetime); ("region", JStr region)].

Definition world (srv : nat -> reply) (f : file) : World :=
  mkWorld 0 counting_bytes 0 srv 0 f [].

Definition w_login : World := world three_pending NoFile.
Definition w_valid : World := world three_pending (Stored (JObj (credential 3600 "cn"))).
Definition w_forced : World := world quick (Stored (JObj (credential 3600 "cn"))).
Definition w_expired : World :=
  world refresh_down (Stored (JObj (credential 30 "global"))).

(** A credential that lives 3600 seconds, in the token file since time 2. *)
Definition w_stored : World :=
  mkWorld 2 counting_bytes 0 quick 0
          (Stored (JObj [("access", JStr "A"); ("refresh", JStr "R");
                         ("expires", JNum 3600); ("region", JStr "cn")]))
          [].

(** The first 32 + 16 bytes of the entropy source, in hex: verifier and
    state of a first login. *)
Definition first_verifier : string :=
  "000102030405060708090a0b0c0d0e0f101112131415161718191a1b1c1d1e1f".
Definition first_state : string := "202122232425262728292a2b2c2d2e2f".

(** Feishu: a sticker event whose text names the broadcast mention. *)
Definition dq : string := String (ascii_of_nat 34) EmptyString.

Definition sticker_payload : string :=
  ("{" ++ dq ++ "text" ++ dq ++ ":" ++ dq ++ "@_all hi" ++ dq ++ "}")%string.

Definition sticker_event : Feishu.raw_event :=
  Feishu.mkEvent "om_1" "oc_1" "sticker" sticker_payload "ou_1".

(** [json.loads] on the payloads used here. *)
Definition loads (s : string) : option json :=
  if String.eqb s sticker_payload
  then Some (JObj [("text", JStr "@_all hi")])
  else None.

Definition everyone (sender_id : string) : bool := true.

Definition idle (n : nat) : Feishu.sdk_reply := Feishu.SdkRaises.

Definition w_feishu : Feishu.World :=
  Feishu.mkWorld idle 0 (fun _ => false) (String.prefix "/tmp/") [].

(** Feishu: an outbound message with a text and three media items; the
    text call raises, the first upload is refused, the other two go
    through. *)
Definition answers (n : nat) : Feishu.sdk_reply :=
  match n with
  | 0%nat => Feishu.SdkRaises
  | 1%nat => Feishu.SdkResponse false JNull
  | 2%nat => Feishu.SdkResponse true (JStr "img_2")
  | 3%nat => Feishu.SdkResponse true JNull
  | 4%nat => Feishu.SdkResponse true (JStr "file_3")
  | _ => Feishu.SdkResponse true JNull
  end.

Definition w_send : Feishu.World :=
  Feishu.mkWorld answers 0 (fun _ => true) (String.prefix "/tmp/") [].

Definition outbound : Feishu.OutboundMessage :=
  Feishu.mkOutbound "oc_1" "hello" ["/tmp/a.PNG"; "/tmp/b.jpg"; "/tmp/c.tar.gz"].

(** More provider behaviours, token files and events. *)

Definition initiate_refused : reply := Resp 0 false "unknown client" None.

Definition refusing (n : nat) : reply := initiate_refused.

Definition refresh_granted : reply :=
  Resp 0 true EmptyString
       (Some (JObj [("access_token", JStr "A1");
                    ("refresh_token", JStr "R1");
                    ("expired_in", JNum 7200)])).

(** A provider that grants whatever it is asked: the refresh, then the
    login. *)
Definition granting_all (n : nat) : reply :=
  match n with
  | 0%nat => refresh_granted
  | 1%nat => initiate_ok 2
  | _ => poll_success
  end.

Definition w_refused : World := world refusing NoFile.
Definition w_broken : World :=
  world quick (Stored (JObj [("access", JStr "A0"); ("expires", JNum 3600)])).
Definition w_lapsed : World :=
  world granting_all (Stored (JObj (credential 30 "global"))).
Definition w_unknown_region : World :=
  world quick (Stored (JObj (credential 30 "us"))).

Definition image_payload : string :=
  ("{" ++ dq ++ "image_key" ++ dq ++ ":" ++ dq ++ "k1" ++ dq ++ "}")%string.

Definition file_payload : string :=
  ("{" ++ dq ++ "file_key" ++ dq ++ ":" ++ dq ++ "fk" ++ dq ++ ","
       ++ dq ++ "file_name" ++ dq ++ ":" ++ dq ++ "/tmp/job.sh" ++ dq
       ++ "}")%string.

Definition null_text_payload : string :=
  ("{" ++ dq ++ "text" ++ dq ++ ":null}")%string.

(** [json.loads] on the payloads of these events. *)
Definition loads_more (s : string) : option json :=
  if String.eqb s image_payload then Some (JObj [("image_key", JStr "k1")])
  else if String.eqb s file_payload then
    Some (JObj [("file_key", JStr "fk");
                ("file_name", JStr "/tmp/job.sh")])
  else if String.eqb s null_text_payload then Some (JObj [("text", JNull)])
  else loads s.

Definition image_event : Feishu.raw_event :=
  Feishu.mkEvent "om_2" "oc_1" "image" image_payload "ou_1".

Definition file_event : Feishu.raw_event :=
  Feishu.mkEvent "om_3" "oc_1" "file" file_payload "ou_1".

Definition null_text_event : Feishu.raw_event :=
  Feishu.mkEvent "om_4" "oc_1" "text" null_text_payload "ou_1".

Definition plain_event : Feishu.raw_event :=
  Feishu.mkEvent "om_5" "oc_1" "text" "@_all  not json " "ou_1".

Definition granting (n : nat) : Feishu.sdk_reply :=
  Feishu.SdkResponse true (JStr "bytes").

Definition w_granting : Feishu.World :=
  Feishu.mkWorld granting 0 (fun _ => false) (String.prefix "/tmp/") [].

(** The same SDK over a file system that takes no write. *)
Definition w_sealed : Feishu.World :=
  Feishu.mkWorld granting 0 (fun _ => false) (fun _ => false) [].

End Scenario.

(** * Properties of the OAuth client *)

Module MinimaxFacts.
Import Minimax.
Local Open Scope list_scope.
Local Open Scope py_scope.

Section Facts.

Variable sha256_hex : string -> string.

Lemma same_store_refl w : same_store w w.
Proof. repeat split. Qed.

Lemma login_minimax_unconfigured fuel region e w :
  config_for region w = (Exc e, w) ->
  login_minimax sha256_hex fuel region w = (Exc e, w).
Proof.
  intros H. unfold login_minimax, request_oauth_code.
  unfold bind at 1. unfold bind at 1. rewrite H. reflexivity.
Qed.

Lemma generate_pkce_eq w :
  generate_pkce sha256_hex w =
  (Ret (hex (drawn w (rng_pos w) 32),
        sha256_hex (hex (drawn w (rng_pos w) 32)),
        hex (drawn w (rng_pos w + 32) 16)),
   after_pkce w).
Proof. reflexivity. Qed.

(** [request_oauth_code] in a configured region: the PKCE values are
    drawn, the request goes out, and the function ends in transport or at
    [response.ok]; it never gets to [response.json()]. *)
Lemma request_oauth_code_eq r c w :
  config_lookup MINIMAX_OAUTH_CONFIG r = Some c ->
  request_oauth_code sha256_hex (JStr r) w =
  (ok_verdict (server w (sent w)),
   after_post (after_pkce w)
              (code_request c (sha256_hex (hex (drawn w (rng_pos w) 32)))
                            (hex (drawn w (rng_pos w + 32) 16)))).
Proof.
  intros Hc. unfold request_oauth_code, config_for. rewrite Hc.
  cbn [lift]. unfold bind at 1. cbn [ret]. unfold bind at 1.
  rewrite generate_pkce_eq.
  unfold bind, post, after_post, code_request, response_ok, raise.
  cbn [clock rng rng_pos server sent token_file trace after_pkce].
  destruct (server w (sent w)) as [l | l ok t j]; reflexivity.
Qed.

(** So does the login: what follows the call of [request_oauth_code] is
    never run. *)
Lemma login_minimax_eq fuel r c w :
  config_lookup MINIMAX_OAUTH_CONFIG r = Some c ->
  login_minimax sha256_hex fuel (JStr r) w =
  (ok_verdict (server w (sent w)),
   after_post (after_pkce w)
              (code_request c (sha256_hex (hex (drawn w (rng_pos w) 32)))
                            (hex (drawn w (rng_pos w + 32) 16)))).
Proof.
  intros Hc. unfold login_minimax. unfold bind at 1.
  rewrite (request_oauth_code_eq r c w Hc).
  destruct (server w (sent w)) as [l | l ok t j]; reflexivity.
Qed.

Lemma ok_verdict_raises r :
  ok_verdict r = Exc AttributeError \/ ok_verdict r = Exc TransportError.
Proof. destruct r; [right | left]; reflexivity. Qed.

Lemma config_for_cases region w :
  (exists r c, region = JStr r /\
               config_lookup MINIMAX_OAUTH_CONFIG r = Some c) \/
  (exists e, config_for region w = (Exc e, w)).
Proof.
  unfold config_for, lift, raise.
  destruct region as [| b | q | r | l | l]; try (right; eexists; reflexivity).
  destruct (config_lookup MINIMAX_OAUTH_CONFIG r) as [c |] eqn:E.
  - left. eauto.
  - right. eexists. reflexivity.
Qed.




(** [login_and_store]: the dump and the return that follow the login are
    never run. *)
Lemma login_and_store_eq fuel w :
  login_and_store sha256_hex fuel w =
  (ok_verdict (server w (sent w)),
   after_post (after_pkce w)
              (code_request cn (sha256_hex (hex (drawn w (rng_pos w) 32)))
                            (hex (drawn w (rng_pos w + 32) 16)))).
Proof.
  unfold login_and_store. unfold bind at 1.
  rewrite (login_minimax_eq fuel "cn" cn w eq_refl).
  destruct (server w (sent w)) as [l | l ok t j]; reflexivity.
Qed.

Lemma get_token_forced fuel w :
  get_minimax_access_token sha256_hex fuel true w =
  login_and_store sha256_hex fuel w.
Proof.
  unfold get_minimax_access_token, bind, token_file_exists.
  rewrite andb_false_r. reflexivity.
Qed.

Lemma get_token_no_file fuel force w :
  token_file w = NoFile \/ token_file w = NoDirectory ->
  get_minimax_access_token sha256_hex fuel force w =
  login_and_store sha256_hex fuel w.
Proof.
  intros [H | H]; unfold get_minimax_access_token, bind, token_file_exists;
    rewrite H; reflexivity.
Qed.

(** The call on a stored credential with its three fields. *)
Lemma get_token_stored fuel w fields a r e life :
  token_file w = Stored (JObj fields) ->
  lookup fields "access" = Some a ->
  lookup fields "refresh" = Some r ->
  lookup fields "expires" = Some e ->
  as_num e = Some life ->
  get_minimax_access_token sha256_hex fuel false w =
  if Qle_bool (clock w + life - 60) (clock w) then
    match refresh_and_store (mkToken a r e (clock w + life)) (JObj fields) w with
    | (Ret v, w1) => (Ret v, w1)
    | (Exc _, w1) => login_and_store sha256_hex fuel w1
    | (Fuel, w1) => (Fuel, w1)
    end
  else (Ret a, w).
Proof.
  intros Hf Ha Hr He Hl.
  unfold get_minimax_access_token. unfold bind at 1.
  unfold token_file_exists. rewrite Hf. cbn [andb negb].
  unfold bind at 1. unfold load_token_file. rewrite Hf.
  unfold bind at 1. cbn [getitem]. rewrite Ha. cbn [lift ret].
  unfold bind at 1. rewrite Hr. cbn [lift ret].
  unfold bind at 1. rewrite He. cbn [lift ret].
  unfold bind at 1. unfold MiniMaxOAuthToken_init.
  unfold bind at 1. cbn [time]. unfold bind at 1. unfold number.
  rewrite Hl. cbn [lift ret].
  unfold bind at 1. unfold is_expired. unfold bind at 1. cbn [time ret].
  cbn [expires_at].
  destruct (Qle_bool (clock w + life - 60) (clock w)); cbn [negb].
  - unfold bind at 1. unfold try_except. unfold bind at 1.
    destruct (refresh_and_store _ _ w) as [[v | x |] w1]; reflexivity.
  - reflexivity.
Qed.

(** With the logical clock the expiry test of a freshly loaded token does
    not depend on the time of the call. *)
Lemma expiry_test now life :
  Qle_bool (now + life - 60) now = true <-> life <= 60.
Proof.
  rewrite Qle_bool_iff. split; intros H; lra.
Qed.

(** [refresh_access_token] in a configured region ends in transport or
    at [response.ok]. *)
Lemma refresh_access_token_eq rt r c w :
  config_lookup MINIMAX_OAUTH_CONFIG r = Some c ->
  refresh_access_token rt (JStr r) w =
  (ok_verdict (server w (sent w)), after_post w (refresh_request c rt)).
Proof.
  intros Hc. unfold refresh_access_token, config_for. rewrite Hc.
  cbn [lift]. unfold bind at 1. cbn [ret].
  unfold bind, post, after_post, refresh_request, response_ok, raise.
  destruct (server w (sent w)) as [l | l ok t j]; reflexivity.
Qed.

Lemma refresh_and_store_known tok fields w r c :
  stored_region fields = JStr r ->
  config_lookup MINIMAX_OAUTH_CONFIG r = Some c ->
  refresh_and_store tok (JObj fields) w =
  (ok_verdict (server w (sent w)),
   after_post w (refresh_request c (refresh tok))).
Proof.
  intros Hreg Hc. unfold refresh_and_store. unfold bind at 1. cbn [get ret].
  fold (stored_region fields). rewrite Hreg. unfold bind at 1.
  rewrite (refresh_access_token_eq (refresh tok) r c w Hc).
  destruct (server w (sent w)) as [l | l ok t j]; reflexivity.
Qed.

Lemma refresh_and_store_unknown tok fields w e :
  config_for (stored_region fields) w = (Exc e, w) ->
  refresh_and_store tok (JObj fields) w = (Exc e, w).
Proof.
  intros He. unfold refresh_and_store. unfold bind at 1. cbn [get ret].
  fold (stored_region fields). unfold bind at 1.
  unfold refresh_access_token. unfold bind at 1. rewrite He. reflexivity.
Qed.

(** The body of the [try]: it raises before anything is sent (a region
    that is no key of the table), or sends the refresh request for the
    stored region and raises; it never returns and never writes. *)
Lemma refresh_and_store_cases tok fields w :
  (exists e,
     refresh_and_store tok (JObj fields) w = (Exc e, w) /\
     forall r, stored_region fields = JStr r ->
               config_lookup MINIMAX_OAUTH_CONFIG r = None) \/
  (exists r c,
     stored_region fields = JStr r /\
     config_lookup MINIMAX_OAUTH_CONFIG r = Some c /\
     refresh_and_store tok (JObj fields) w =
       (ok_verdict (server w (sent w)),
        after_post w (refresh_request c (refresh tok)))).
Proof.
  destruct (config_for_cases (stored_region fields) w)
    as [(r & c & Hreg & Hc) | (e & He)].
  - right. exists r, c. split; [exact Hreg |]. split; [exact Hc |].
    apply (refresh_and_store_known tok fields w r c Hreg Hc).
  - left. exists e. split.
    + apply refresh_and_store_unknown. exact He.
    + intros r Hreg. rewrite Hreg in He. unfold config_for, lift in He.
      destruct (config_lookup MINIMAX_OAUTH_CONFIG r); [discriminate |].
      reflexivity.
Qed.

Lemma get_token_expired fuel w fields tok :
  stored_expired w fields tok ->
  get_minimax_access_token sha256_hex fuel false w =
  match refresh_and_store tok (JObj fields) w with
  | (Ret v, w1) => (Ret v, w1)
  | (Exc _, w1) => login_and_store sha256_hex fuel w1
  | (Fuel, w1) => (Fuel, w1)
  end.
Proof.
  intros (Hf & Ha & Hr & He & Hinit & Hexp).
  unfold MiniMaxOAuthToken_init, bind, time, number, lift, ret, raise in Hinit.
  destruct (as_num (expires tok)) as [life |] eqn:Hl; [| discriminate].
  injection Hinit as Htok.
  unfold is_expired, bind, time, ret in Hexp. injection Hexp as Hexp.
  rewrite <- Htok in Hexp. cbn [expires_at] in Hexp.
  rewrite (get_token_stored fuel w fields _ _ _ life Hf Ha Hr He Hl), Hexp.
  rewrite Htok. reflexivity.
Qed.

Lemma stored_valid_inv w a :
  stored_valid w a ->
  exists fields r e life,
    token_file w = Stored (JObj fields) /\
    lookup fields "access" = Some a /\
    lookup fields "refresh" = Some r /\
    lookup fields "expires" = Some e /\
    as_num e = Some life /\
    Qle_bool (clock w + life - 60) (clock w) = false.
Proof.
  intros (fields & r & e & tok & Hf & Ha & Hr & He & Hinit & Hexp).
  exists fields, r, e.
  unfold MiniMaxOAuthToken_init, bind, time, number, lift, ret, raise in Hinit.
  destruct (as_num e) as [life |]; [| discriminate].
  injection Hinit as <-.
  unfold is_expired, bind, time, ret in Hexp. cbn [expires_at] in Hexp.
  injection Hexp as Hexp.
  exists life. auto 10.
Qed.

Lemma get_token_valid fuel w a :
  stored_valid w a ->
  get_minimax_access_token sha256_hex fuel false w = (Ret a, w).
Proof.
  intros H. apply stored_valid_inv in H.
  destruct H as (fields & r & e & life & Hf & Ha & Hr & He & Hl & Hexp).
  rewrite (get_token_stored fuel w fields a r e life Hf Ha Hr He Hl), Hexp.
  reflexivity.
Qed.

Ltac get_token_steps :=
  unfold get_minimax_access_token, bind, token_file_exists, load_token_file,
    getitem, MiniMaxOAuthToken_init, number, time, lift, ret, raise;
  cbn.

(** The paths through one call.  It ends at once, on a token file it
    cannot use or on a token it finds valid; or it is a login; or, on a
    token it finds expired, it is a refresh attempt and then a login. *)
Lemma get_token_cases fuel force w :
  (exists e, get_minimax_access_token sha256_hex fuel force w = (Exc e, w)) \/
  (exists a,
     force = false /\ stored_valid w a /\
     get_minimax_access_token sha256_hex fuel force w = (Ret a, w)) \/
  get_minimax_access_token sha256_hex fuel force w =
    login_and_store sha256_hex fuel w \/
  (exists fields tok,
     force = false /\ stored_expired w fields tok /\
     get_minimax_access_token sha256_hex fuel force w =
       login_and_store sha256_hex fuel
         (snd (refresh_and_store tok (JObj fields) w))).
Proof.
  destruct force.
  { right; right; left. apply get_token_forced. }
  destruct (token_file w) as [| | | j] eqn:Hf.
  { right; right; left. apply get_token_no_file. auto. }
  { right; right; left. apply get_token_no_file. auto. }
  { left. eexists. get_token_steps. repeat (rewrite ?Hf; cbn). reflexivity. }
  destruct j as [| b | q | s | its | fields];
    try (left; eexists; get_token_steps;
         repeat (rewrite ?Hf; cbn); reflexivity).
  destruct (lookup fields "access") as [a |] eqn:Ha.
  2:{ left. eexists. get_token_steps.
      repeat (rewrite ?Hf, ?Ha; cbn). reflexivity. }
  destruct (lookup fields "refresh") as [r |] eqn:Hr.
  2:{ left. eexists. get_token_steps.
      repeat (rewrite ?Hf, ?Ha, ?Hr; cbn). reflexivity. }
  destruct (lookup fields "expires") as [e |] eqn:He.
  2:{ left. eexists. get_token_steps.
      repeat (rewrite ?Hf, ?Ha, ?Hr, ?He; cbn). reflexivity. }
  destruct (as_num e) as [life |] eqn:Hl.
  2:{ left. eexists. get_token_steps.
      repeat (rewrite ?Hf, ?Ha, ?Hr, ?He, ?Hl; cbn). reflexivity. }
  destruct (Qle_bool (clock w + life - 60) (clock w)) eqn:Hx.
  - right; right; right.
    exists fields, (mkToken a r e (clock w + life)).
    assert (Hexp : stored_expired w fields (mkToken a r e (clock w + life))).
    { unfold stored_expired. cbn [access refresh expires].
      repeat (split; [assumption |]). split.
      - unfold MiniMaxOAuthToken_init, bind, time, number. rewrite Hl.
        reflexivity.
      - unfold is_expired, bind, time, ret. cbn [expires_at].
        rewrite Hx. reflexivity. }
    split; [reflexivity |]. split; [exact Hexp |].
    rewrite (get_token_expired fuel w fields _ Hexp).
    destruct (refresh_and_store_cases (mkToken a r e (clock w + life)) fields w)
      as [(x & -> & _) | (r0 & c & _ & _ & ->)]; [reflexivity |].
    destruct (ok_verdict_raises (server w (sent w))) as [-> | ->];
      reflexivity.
  - right; left. exists a.
    assert (Hval : stored_valid w a).
    { exists fields, r, e, (mkToken a r e (clock w + life)).
      repeat (split; [assumption |]). split.
      - unfold MiniMaxOAuthToken_init, bind, time, number. rewrite Hl.
        reflexivity.
      - unfold is_expired, bind, time, ret. cbn [expires_at].
        rewrite Hx. reflexivity. }
    split; [reflexivity |]. split; [exact Hval |].
    apply get_token_valid. exact Hval.
Qed.

(** Every run of one call: it ends where it started; or it adds the
    initiate request of a login in region "cn"; or it adds a refresh
    request and then that initiate request.  Only the first kind can
    return, and none of them writes the token file. *)
Lemma get_token_run fuel force w :
  let run := get_minimax_access_token sha256_hex fuel force w in
  let init :=
    EvPost (code_request cn (sha256_hex (hex (drawn w (rng_pos w) 32)))
                         (hex (drawn w (rng_pos w + 32) 16))) in
  (exists e, run = (Exc e, w)) \/
  (exists a, force = false /\ stored_valid w a /\ run = (Ret a, w)) \/
  ((exists e, fst run = Exc e) /\
   same_store w (snd run) /\
   (trace (snd run) = trace w ++ [init] \/
    exists fields tok r c,
      force = false /\ stored_expired w fields tok /\
      stored_region fields = JStr r /\
      config_lookup MINIMAX_OAUTH_CONFIG r = Some c /\
      trace (snd run) =
        trace w ++ [EvPost (refresh_request c (refresh tok)); init])).
Proof.
  cbv zeta.
  assert (Hraise : forall w0, exists e, ok_verdict (server w0 (sent w0)) = Exc e).
  { intros w0. destruct (ok_verdict_raises (server w0 (sent w0))) as [-> | ->];
      eexists; reflexivity. }
  destruct (get_token_cases fuel force w)
    as [He | [Ha | [Hl | (fields & tok & Hforce & Hexp & Hl)]]].
  - left. exact He.
  - right; left. exact Ha.
  - right; right. rewrite Hl, login_and_store_eq. cbn [fst snd].
    split; [apply Hraise |]. split; [repeat split |]. left. reflexivity.
  - right; right. rewrite Hl, login_and_store_eq. cbn [fst snd].
    split; [apply Hraise |].
    destruct (refresh_and_store_cases tok fields w)
      as [(x & -> & _) | (r & c & Hreg & Hc & ->)]; cbn [snd].
    + split; [repeat split |]. left. reflexivity.
    + split; [repeat split |]. right. exists fields, tok, r, c.
      repeat (split; [assumption |]).
      cbn [after_post after_pkce trace rng rng_pos drawn].
      rewrite <- app_assoc. reflexivity.
Qed.

(** C2, as the code has it.  A call with [force_refresh=True] never looks
    at the stored credential: whatever the token file holds, the call
    sends no refresh request and is a device-flow login in the default
    region -- one initiate request, then polls. *)
Theorem forced_call_skips_stored_credential fuel w ev :
  trace (snd (get_minimax_access_token sha256_hex fuel true w))
    = trace w ++ ev ->
  existsb is_refresh (posts ev) = false /\
  exists uc ds,
    ev = EvPost (code_request cn (sha256_hex (hex (drawn w (rng_pos w) 32)))
                              (hex (drawn w (rng_pos w + 32) 16))) ::
         poll_events (poll_request cn uc (hex (drawn w (rng_pos w + 48) 32)))
                     ds.
Proof.
  intros Hev. rewrite get_token_forced, login_and_store_eq in Hev.
  cbn [snd after_post after_pkce trace] in Hev.
  apply app_inv_head in Hev. subst ev.
  split; [reflexivity |]. exists JNull, []. reflexivity.
Qed.

(** C9.  While the stored token is valid, two calls in succession without
    [force_refresh] return the same access string, the stored one, and the
    second call sends nothing: trace and request counter stay as the first
    call left them. *)
Theorem valid_token_calls_are_idempotent fuel1 fuel2 w a :
  stored_valid w a ->
  let first := get_minimax_access_token sha256_hex fuel1 false w in
  let second := get_minimax_access_token sha256_hex fuel2 false (snd first) in
  fst first = Ret a /\
  fst second = Ret a /\
  trace (snd second) = trace (snd first) /\
  sent (snd second) = sent (snd first).
Proof.
  intros H. cbv zeta.
  rewrite (get_token_valid fuel1 w a H). cbn [fst snd].
  rewrite (get_token_valid fuel2 w a H). cbn [fst snd].
  repeat split.
Qed.

(** C5, as the code has it.  One call makes at most one refresh attempt
    and at most one device-flow login attempt, and sends no other
    request: there is no retry.  Both attempts can happen in the same
    call; the refresh request then comes first, and the login is the
    fallback for the refresh attempt that raised.  The call returns or
    raises, whatever its budget; what it returns is the stored access
    string of a credential that passes the expiry test. *)
Theorem one_call_one_refresh_one_login fuel force w ev :
  trace (snd (get_minimax_access_token sha256_hex fuel force w))
    = trace w ++ ev ->
  let out := fst (get_minimax_access_token sha256_hex fuel force w) in
  (refresh_attempts ev <= 1)%nat /\
  (login_attempts ev <= 1)%nat /\
  length (posts ev) = (refresh_attempts ev + login_attempts ev)%nat /\
  (forall before rq after,
     posts ev = before ++ rq :: after ->
     is_refresh rq = true -> before = []) /\
  ((exists v, out = Ret v /\ stored_valid w v /\ ev = []) \/
   (exists e, out = Exc e)).
Proof.
  intros Hev. cbv zeta.
  assert (Hnil : forall l : list event, trace w = trace w ++ l -> l = []).
  { intros l H. rewrite <- (app_nil_r (trace w)) in H at 1.
    apply app_inv_head in H. symmetry. exact H. }
  assert (Hfront : forall (x : request) before rq after,
            [x] = before ++ rq :: after -> before = []).
  { intros x [| b [| b' before]] rq after H; [reflexivity | |];
      discriminate H. }
  destruct (get_token_run fuel force w)
    as [(e & Hrun) | [(a & _ & Hval & Hrun)
                     | ((e & Hout) & _ & [Ht | (fields & tok & r & c & _ & _
                                                & _ & _ & Ht)])]];
    cbv zeta in *.
  - rewrite Hrun in *. cbn [fst snd] in *. apply Hnil in Hev. subst ev.
    cbn. repeat split; try lia.
    + intros [| b before] rq after H; discriminate H.
    + right. eauto.
  - rewrite Hrun in *. cbn [fst snd] in *. apply Hnil in Hev. subst ev.
    cbn. repeat split; try lia.
    + intros [| b before] rq after H; discriminate H.
    + left. eauto.
  - rewrite Ht in Hev. apply app_inv_head in Hev. subst ev.
    cbn. repeat split; try lia.
    + intros before rq after H _. eapply Hfront. exact H.
    + right. eauto.
  - rewrite Ht in Hev. apply app_inv_head in Hev. subst ev.
    cbn. repeat split; try lia.
    + intros [| b [| b' before]] rq after H Hrq; [reflexivity | |].
      * exfalso. cbn in H. injection H as _ <- _. discriminate Hrq.
      * destruct before; discriminate H.
    + right. eauto.
Qed.

End Facts.

End MinimaxFacts.

(** * Properties of the Feishu channel *)

Module FeishuFacts.
Import Feishu.
Local Open Scope list_scope.

Section Facts.

Variable json_loads : string -> option json.
Variable is_allowed : string -> bool.
Variable tempdir : string.

Lemma recognized_false t :
  recognized t = false ->
  String.eqb t "image" = false /\ String.eqb t "file" = false /\
  String.eqb t "media" = false /\ String.eqb t "audio" = false.
Proof.
  unfold recognized. cbn [existsb]. intros H.
  repeat (apply orb_false_iff in H; destruct H as [? H]).
  auto.
Qed.

(** On a payload that decodes to an object and a tag outside the media
    kinds, the [try] block reads the text field and touches nothing. *)
Lemma decode_content_plain mid t c fields w :
  json_loads c = Some (JObj fields) ->
  recognized t = false ->
  decode_content json_loads tempdir mid t c w
  = (inr (text_field fields, []), w).
Proof.
  intros Hj Hr. apply recognized_false in Hr.
  destruct Hr as (H1 & H2 & H3 & H4).
  unfold decode_content. rewrite Hj, H1, H2, H3, H4. reflexivity.
Qed.

Lemma strip_mention_ok text text' :
  strip_mention text = inr text' -> text' = without_mention text.
Proof.
  unfold strip_mention, without_mention.
  destruct text as [| b | q | s | items | fields]; try discriminate.
  - destruct (contains "@_all" s); intros H; injection H as <-; reflexivity.
  - destruct (existsb _ items); [discriminate |].
    intros H; injection H as <-; reflexivity.
  - destruct (lookup fields "@_all"); discriminate.
Qed.

(** C7, as the code has it.  For a raw event whose tag is not one of the
    recognized kinds and whose payload decodes to an object, the message
    the callback forwards has no media, and its content is the decoded
    [text] field (the empty string when there is none) with the broadcast
    mention taken out: the field itself when it holds no "@_all", else
    the field with every "@_all" removed and then stripped. *)
Theorem unrecognized_type_content ev w fields m w' :
  json_loads (ev_content ev) = Some (JObj fields) ->
  recognized (ev_message_type ev) = false ->
  do_p2_im_message_receive_v1 json_loads is_allowed tempdir ev w
    = (Forwarded m, w') ->
  in_media m = [] /\
  in_content m = without_mention (text_field fields) /\
  (forall s, text_field fields = JStr s -> contains "@_all" s = false ->
             in_content m = text_field fields) /\
  w' = w.
Proof.
  intros Hj Hr H. unfold do_p2_im_message_receive_v1 in H.
  rewrite (decode_content_plain _ _ _ fields w Hj Hr) in H.
  destruct (strip_mention (text_field fields)) as [e | text'] eqn:Hs;
    [discriminate |].
  apply strip_mention_ok in Hs.
  destruct (is_allowed (ev_sender_open_id ev)); [| discriminate].
  injection H as <- <-. cbn [in_media in_content].
  repeat split; try assumption.
  intros s Hs' Hc. rewrite Hs. unfold without_mention.
  rewrite Hs', Hc. reflexivity.
Qed.

Lemma send_item_log chat p w :
  on_disk (send_item chat p w) = on_disk w /\
  ((on_disk w p = false /\ log (send_item chat p w) = log w) \/
   (on_disk w p = true /\
    exists r,
      (uploaded_key r = None /\
       log (send_item chat p w) = log w ++ [Called (upload_call p) r]) \/
      (exists k r',
         uploaded_key r = Some k /\
         log (send_item chat p w) =
           log w ++ [Called (upload_call p) r;
                     Called (MessageCreate chat (message_kind p)
                               (JObj [(key_field p, k)])) r']))).
Proof.
  unfold send_item, upload_call, key_field, _upload_image, _upload_file.
  destruct (String.eqb (message_kind p) "image");
    (destruct (on_disk w p) eqn:Hd; cbn [negb];
     [| split; [reflexivity | left; split; reflexivity]]);
    unfold call_sdk; cbn [calls sdk on_disk log];
    (destruct (sdk w (calls w)) as [| [|] k] eqn:Hr; cbn [snd];
     [split; [reflexivity |]; right; split; [reflexivity |];
      exists SdkRaises; left; split; reflexivity
     | destruct (truthy k) eqn:Hk; cbn [on_disk log calls sdk];
       [split; [reflexivity |]; right; split; [reflexivity |];
        exists (SdkResponse true k); right; eexists; eexists;
        split; [cbn; rewrite Hk; reflexivity |];
        rewrite <- app_assoc; reflexivity
       | split; [reflexivity |]; right; split; [reflexivity |];
         exists (SdkResponse true k); left;
         split; [cbn; rewrite Hk; reflexivity | reflexivity]]
     | split; [reflexivity |]; right; split; [reflexivity |];
       exists (SdkResponse false k); left; split; reflexivity]).
Qed.

Lemma send_media_delivery chat paths : forall w,
  exists evs,
    log (send_media chat paths w) = log w ++ evs /\
    delivery chat (on_disk w) paths evs.
Proof.
  induction paths as [| p ps IH]; intros w.
  - exists []. cbn. rewrite app_nil_r. split; [reflexivity | constructor].
  - cbn [send_media].
    destruct (IH (send_item chat p w)) as (evs & Hlog & Hdel).
    destruct (send_item_log chat p w) as (Hdisk & Hcase).
    rewrite Hdisk in Hdel. rewrite Hlog.
    destruct Hcase as [[Hd Hl] | (Hd & r & [[Hk Hl] | (k & r' & Hk & Hl)])];
      rewrite Hl.
    + exists evs. split; [reflexivity |].
      apply delivery_missing; assumption.
    + eexists. rewrite <- app_assoc. split; [reflexivity |].
      apply delivery_failed; assumption.
    + eexists. rewrite <- app_assoc. split; [reflexivity |].
      apply delivery_sent; assumption.
Qed.

Lemma delivery_uploads chat disk paths evs :
  delivery chat disk paths evs ->
  uploads evs = map upload_call (filter disk paths) /\
  (length (creates evs) <= length (uploads evs))%nat.
Proof.
  assert (Hup : forall p r, uploads [Called (upload_call p) r] = [upload_call p]).
  { intros p r. unfold upload_call.
    destruct (String.eqb (message_kind p) "image"); reflexivity. }
  assert (Hcr : forall p r, creates [Called (upload_call p) r] = []).
  { intros p r. unfold upload_call.
    destruct (String.eqb (message_kind p) "image"); reflexivity. }
  assert (Happ : forall a b, uploads (a ++ b) = uploads a ++ uploads b)
    by (intros; apply flat_map_app).
  assert (Capp : forall a b, creates (a ++ b) = creates a ++ creates b)
    by (intros; apply flat_map_app).
  induction 1 as [| p ps evs Hd _ [IHu IHc] | p ps evs r Hd Hk _ [IHu IHc]
                  | p ps evs r k r' Hd Hk _ [IHu IHc]].
  - split; [reflexivity | apply le_n].
  - cbn [filter]. rewrite Hd. split; assumption.
  - cbn [filter]. rewrite Hd. cbn [map].
    change (Called (upload_call p) r :: evs)
      with ([Called (upload_call p) r] ++ evs).
    rewrite Happ, Capp, Hup, Hcr. cbn [app length].
    split; [rewrite IHu; reflexivity | lia].
  - cbn [filter]. rewrite Hd. cbn [map].
    change (Called (upload_call p) r :: ?x :: evs)
      with ([Called (upload_call p) r] ++ [x] ++ evs).
    rewrite !Happ, !Capp, Hup, Hcr. cbn [app length uploads creates flat_map].
    split; [rewrite IHu; reflexivity | ].
    fold (creates evs). fold (uploads evs). lia.
Qed.

(** C8.  On a started channel [send] delivers the media list item by item
    and in order: after the text call, if there is a text, whatever that
    call answered or raised, come the items' calls, one upload per item on
    disk, in the order of the list, each successful upload followed at
    once by that item's own message-create call; an item whose upload
    fails costs its upload alone and the items after it are still
    uploaded. *)
Theorem send_delivers_media_in_order msg w :
  exists text_evs media_evs,
    log (send true true msg w) = log w ++ text_evs ++ media_evs /\
    (content msg = EmptyString /\ text_evs = [] \/
     content msg <> EmptyString /\
     text_evs = [Called (MessageCreate (chat_id msg) "text"
                           (JObj [("text", JStr (content msg))]))
                        (sdk w (calls w))]) /\
    delivery (chat_id msg) (on_disk w) (media msg) media_evs /\
    uploads media_evs = map upload_call (filter (on_disk w) (media msg)) /\
    (length (creates media_evs) <= length (uploads media_evs))%nat.
Proof.
  unfold send. cbn [negb].
  destruct (String.eqb (content msg) EmptyString) eqn:Hc; cbn [negb].
  - destruct (send_media_delivery (chat_id msg) (media msg) w)
      as (evs & Hlog & Hdel).
    exists [], evs. split; [exact Hlog |].
    split; [left; split; [apply String.eqb_eq; exact Hc | reflexivity] |].
    split; [exact Hdel |]. eapply delivery_uploads. exact Hdel.
  - set (w1 := snd (call_sdk _ w)).
    destruct (send_media_delivery (chat_id msg) (media msg) w1)
      as (evs & Hlog & Hdel).
    eexists. exists evs. split.
    + rewrite Hlog. unfold w1. cbn [call_sdk snd log].
      rewrite <- app_assoc. reflexivity.
    + split.
      * right. split; [| reflexivity].
        intros E. apply String.eqb_eq in E. congruence.
      * split; [exact Hdel |]. eapply delivery_uploads. exact Hdel.
Qed.

End Facts.

End FeishuFacts.

(** * Concrete runs *)

Module Runs.
Import Minimax Scenario.
Local Open Scope list_scope.

(** The digest agrees with the published test vectors. *)
Example sha256_abc :
  Sha256.hexdigest "abc" =
  "ba7816bf8f01cfea414140de5dae2223b00361a396177a9cb410ff61f20015ad"%string.
Proof. vm_compute. reflexivity. Qed.

Example sha256_empty :
  Sha256.hexdigest EmptyString =
  "e3b0c44298fc1c149afbf4c8996fb92427ae41e4649b934ca495991b7852b855"%string.
Proof. vm_compute. reflexivity. Qed.

(** C6.  Scenario C of the design document: the provider accepts the
    initiate request and would answer three polls with pending and the
    fourth with success.  The login raises [AttributeError] at
    [response.ok], right after the initiate request: it does not sleep,
    sends no poll, returns no credential, and ends in none of the three
    ways of the poll loop, whatever budget it is given. *)
Theorem login_stops_before_the_poll_loop :
  let run := login_minimax Sha256.hexdigest 5 (JStr "cn") w_login in
  server w_login 0%nat = initiate_ok 2 /\
  server w_login 4%nat = poll_success /\
  fst run = Exc AttributeError /\
  trace (snd run) =
    [EvPost (code_request cn (Sha256.hexdigest first_verifier) first_state)] /\
  sent (snd run) = 1%nat /\
  (forall fuel,
     login_minimax Sha256.hexdigest fuel (JStr "cn") w_login = run).
Proof.
  cbv zeta.
  split; [reflexivity |]. split; [reflexivity |].
  split; [vm_compute; reflexivity |].
  split; [vm_compute; reflexivity |].
  split; [vm_compute; reflexivity |].
  intros fuel.
  rewrite !(MinimaxFacts.login_minimax_eq Sha256.hexdigest _ "cn" cn w_login
              eq_refl).
  reflexivity.
Qed.

(** C2, refuted as stated.  With a credential in the token file, a call
    with [force_refresh=True] sends no refresh request at all: its only
    request is the initiate request of a device-flow login. *)
Lemma forced_call_sends_no_refresh :
  let tr := trace (snd (get_minimax_access_token Sha256.hexdigest 5 true
                          w_forced)) in
  token_file w_forced = Stored (JObj (credential 3600 "cn")) /\
  refresh_attempts tr = 0%nat /\
  login_attempts tr = 1%nat /\
  posts tr =
    [code_request cn (Sha256.hexdigest first_verifier) first_state].
Proof. vm_compute. repeat split. Qed.

(** C3.  A credential that lives 3600 seconds is in the token file since
    time 2.  A call 3570 seconds later, 30 seconds before the expiry
    instant, returns the stored access string and leaves the world as it
    was: no refresh request is sent.  So does a call a million seconds
    later: [expires_at] is computed from the time of the call, not from
    the time the credential was stored. *)
Theorem stored_token_outlives_its_expiry :
  let w1 := w_stored in
  let late := elapse 3570 w1 in
  let stale := elapse 1000000 w1 in
  clock w1 == 2 /\
  token_file w1 =
    Stored (JObj [("access", JStr "A"); ("refresh", JStr "R");
                  ("expires", JNum 3600); ("region", JStr "cn")]) /\
  get_minimax_access_token Sha256.hexdigest 5 false late
    = (Ret (JStr "A"), late) /\
  get_minimax_access_token Sha256.hexdigest 5 false stale
    = (Ret (JStr "A"), stale).
Proof. vm_compute. repeat split. Qed.

(** C5, refuted as stated.  With an expired credential and a provider that
    turns the refresh down, one call makes a refresh attempt and then a
    login attempt. *)
Lemma refresh_then_login_in_one_call :
  let tr := trace (snd (get_minimax_access_token Sha256.hexdigest 5 false
                          w_expired)) in
  refresh_attempts tr = 1%nat /\ login_attempts tr = 1%nat.
Proof. vm_compute. split; reflexivity. Qed.

(** C10.  The token file holds a credential of region "global" that the
    expiry test finds expired, and the provider grants whatever it is
    asked.  The call sends the refresh request to the "global" endpoint,
    the attempt raises at [response.ok], and the call falls back to a
    login in region "cn", whose initiate request goes to the "cn"
    endpoint.  That login raises in the same way: the call fails and the
    token file still holds the old record, with region "global". *)
Theorem fallback_login_leaves_the_record :
  let run := get_minimax_access_token Sha256.hexdigest 5 false w_lapsed in
  token_file w_lapsed = Stored (JObj (credential 30 "global")) /\
  server w_lapsed 0%nat = refresh_granted /\
  posts (trace (snd run)) =
    [refresh_request intl (JStr "R0");
     code_request cn (Sha256.hexdigest first_verifier) first_state] /\
  fst run = Exc AttributeError /\
  token_file (snd run) = Stored (JObj (credential 30 "global")).
Proof. vm_compute. repeat split. Qed.

(** C7, refuted as stated.  A sticker event whose payload decodes to the
    text "@_all hi" is forwarded with the content "hi". *)
Lemma sticker_text_loses_its_mention :
  Feishu.recognized (Feishu.ev_message_type sticker_event) = false /\
  loads (Feishu.ev_content sticker_event)
    = Some (JObj [("text", JStr "@_all hi")]) /\
  Feishu.do_p2_im_message_receive_v1 loads everyone "/tmp" sticker_event
    w_feishu
  = (Feishu.Forwarded
       (Feishu.mkInbound "ou_1" "oc_1" (JStr "hi")
          [("message_id", "om_1"); ("chat_id", "oc_1");
           ("msg_type", "sticker"); ("sender_id", "ou_1")]%string
          []),
     w_feishu) /\
  JStr "hi" <> JStr "@_all hi".
Proof.
  split; [reflexivity |]. split; [reflexivity |].
  split; [vm_compute; reflexivity | discriminate].
Qed.

(** A send whose text call raises and whose first upload is refused. *)
Example send_three_items :
  Feishu.creates (Feishu.log (Feishu.send true true outbound w_send)) =
  [Feishu.MessageCreate "oc_1" "text" (JObj [("text", JStr "hello")]);
   Feishu.MessageCreate "oc_1" "image" (JObj [("image_key", JStr "img_2")]);
   Feishu.MessageCreate "oc_1" "file" (JObj [("file_key", JStr "file_3")])].
Proof. vm_compute. reflexivity. Qed.

(** The general statements at these worlds. *)


Lemma forced_call_skips_stored_credential_witness :
  exists ev,
    trace (snd (get_minimax_access_token Sha256.hexdigest 5 true w_forced))
      = trace w_forced ++ ev /\
    existsb is_refresh (posts ev) = false.
Proof.
  exists (trace (snd (get_minimax_access_token Sha256.hexdigest 5 true
                        w_forced))).
  split; [reflexivity |].
  exact (proj1 (MinimaxFacts.forced_call_skips_stored_credential
                  Sha256.hexdigest 5 w_forced
                  (trace (snd (get_minimax_access_token Sha256.hexdigest 5
                                 true w_forced)))
                  eq_refl)).
Defined.


Lemma one_call_one_refresh_one_login_witness :
  exists ev,
    trace (snd (get_minimax_access_token Sha256.hexdigest 5 false w_expired))
      = trace w_expired ++ ev /\
    (refresh_attempts ev <= 1)%nat /\ (login_attempts ev <= 1)%nat /\
    length (posts ev) = (refresh_attempts ev + login_attempts ev)%nat.
Proof.
  exists (trace (snd (get_minimax_access_token Sha256.hexdigest 5 false
                        w_expired))).
  split; [reflexivity |].
  destruct (MinimaxFacts.one_call_one_refresh_one_login Sha256.hexdigest 5
              false w_expired
              (trace (snd (get_minimax_access_token Sha256.hexdigest 5 false
                             w_expired)))
              eq_refl) as (Hr & Hl & Hn & _).
  split; [exact Hr |]. split; [exact Hl | exact Hn].
Defined.

Lemma unrecognized_type_content_witness :
  exists m w',
    Feishu.do_p2_im_message_receive_v1 loads everyone "/tmp" sticker_event
      w_feishu = (Feishu.Forwarded m, w') /\
    Feishu.in_media m = [] /\
    Feishu.in_content m =
      Feishu.without_mention (Feishu.text_field [("text", JStr "@_all hi")]).
Proof.
  eexists. eexists. split; [vm_compute; reflexivity |].
  destruct (FeishuFacts.unrecognized_type_content loads everyone "/tmp"
              sticker_event w_feishu [("text", JStr "@_all hi")] _ _
              eq_refl eq_refl eq_refl) as (Hm & Hc & _).
  split; [exact Hm | exact Hc].
Defined.

Lemma valid_token_calls_are_idempotent_witness :
  stored_valid w_valid (JStr "A0") /\
  let first := get_minimax_access_token Sha256.hexdigest 3 false w_valid in
  let second :=
    get_minimax_access_token Sha256.hexdigest 7 false (snd first) in
  fst first = Ret (JStr "A0") /\
  fst second = Ret (JStr "A0") /\
  trace (snd second) = trace (snd first) /\
  sent (snd second) = sent (snd first).
Proof.
  assert (H : stored_valid w_valid (JStr "A0")).
  { exists (credential 3600 "cn"), (JStr "R0"), (JNum 3600),
      (mkToken (JStr "A0") (JStr "R0") (JNum 3600) (0 + 3600)).
    repeat split. }
  split; [exact H |].
  exact (MinimaxFacts.valid_token_calls_are_idempotent Sha256.hexdigest 3 7
           w_valid (JStr "A0") H).
Defined.

End Runs.

(** * More of the OAuth client *)

Module MinimaxMore.
Import Minimax.
Local Open Scope list_scope.
Local Open Scope py_scope.

Lemma string_length_app (a b : string) :
  String.length (a ++ b)%string = (String.length a + String.length b)%nat.
Proof. induction a as [| c a IH]; cbn; [reflexivity | rewrite IH; reflexivity]. Qed.

Lemma hex_cons b rest :
  hex (b :: rest) =
  String (hex_digit (N.div (Byte.to_N b) 16))
         (String (hex_digit (N.modulo (Byte.to_N b) 16)) (hex rest)).
Proof. reflexivity. Qed.

Lemma hex_length bs : String.length (hex bs) = (2 * length bs)%nat.
Proof.
  induction bs as [| b bs IH]; [reflexivity |].
  rewrite hex_cons. cbn [String.length length]. rewrite IH. lia.
Qed.

Lemma unhex_byte b :
  unhex_digit (hex_digit (N.div (Byte.to_N b) 16)) = Some (N.div (Byte.to_N b) 16) /\
  unhex_digit (hex_digit (N.modulo (Byte.to_N b) 16)) = Some (N.modulo (Byte.to_N b) 16).
Proof. destruct b; split; reflexivity. Qed.

(** X2.  [bytes.hex()] loses nothing: reading the digits back gives the
    bytes, so two different draws of entropy never give the same verifier
    or state. *)
Theorem unhex_hex bs : unhex (hex bs) = Some bs.
Proof.
  induction bs as [| b bs IH]; [reflexivity |].
  rewrite hex_cons. cbn [unhex].
  destruct (unhex_byte b) as [-> ->]. rewrite IH.
  replace (16 * (Byte.to_N b / 16) + Byte.to_N b mod 16)%N with (Byte.to_N b).
  - rewrite Byte.of_to_N. reflexivity.
  - apply N.div_mod. discriminate.
Qed.

Lemma string_app_assoc (a b c : string) :
  ((a ++ b) ++ c)%string = (a ++ (b ++ c))%string.
Proof. induction a as [| x a IH]; cbn; [reflexivity | rewrite IH; reflexivity]. Qed.

(** X3.  For two non-empty dicts that share no key -- so that the dict
    holding the fields of both lists those of the first, then those of
    the second -- the encoding of the whole is the encodings of the two
    joined by "&". *)
Theorem to_form_urlencoded_app a b :
  a <> [] -> b <> [] ->
  NoDup (map fst (a ++ b)) ->
  to_form_urlencoded (a ++ b) =
  (to_form_urlencoded a ++ "&" ++ to_form_urlencoded b)%string.
Proof.
  intros Ha Hb _. induction a as [| [k v] a IH]; [contradiction |].
  destruct a as [| kv a].
  - cbn [app]. destruct b as [| kv b]; [contradiction |].
    cbn [to_form_urlencoded]. rewrite !string_app_assoc. reflexivity.
  - change (((k, v) :: kv :: a) ++ b) with ((k, v) :: (kv :: a) ++ b).
    change (to_form_urlencoded ((k, v) :: (kv :: a) ++ b))
      with (k ++ "=" ++ v ++ "&" ++ to_form_urlencoded ((kv :: a) ++ b))%string.
    rewrite IH by discriminate.
    change (to_form_urlencoded ((k, v) :: kv :: a))
      with (k ++ "=" ++ v ++ "&" ++ to_form_urlencoded (kv :: a))%string.
    rewrite !string_app_assoc. reflexivity.
Qed.

Lemma to_form_urlencoded_cons k v kv rest :
  to_form_urlencoded ((k, v) :: kv :: rest) =
  (k ++ "=" ++ v ++ "&" ++ to_form_urlencoded (kv :: rest))%string.
Proof. reflexivity. Qed.

(** X4.  [to_form_urlencoded] escapes nothing: wherever it stands in the
    dict, a field whose value holds "&" and "=" is encoded exactly as the
    two fields it spells, so the encoding does not tell the two dicts
    apart. *)
Theorem to_form_urlencoded_does_not_escape before after k v k' v' :
  to_form_urlencoded
    (before ++ [(k, (v ++ "&" ++ k' ++ "=" ++ v')%string)] ++ after) =
  to_form_urlencoded (before ++ [(k, v); (k', v')] ++ after).
Proof.
  induction before as [| [k0 v0] before IH].
  - cbn [app]. destruct after as [| kv after]; [reflexivity |].
    rewrite !to_form_urlencoded_cons, !string_app_assoc. reflexivity.
  - destruct before as [| kv before].
    + cbn [app] in *. rewrite !to_form_urlencoded_cons, IH.
      destruct after as [| kv after];
        rewrite ?to_form_urlencoded_cons; reflexivity.
    + change ((k0, v0) :: kv :: before) with ([(k0, v0)] ++ kv :: before).
      rewrite <- !app_assoc. cbn [app] in *.
      rewrite !to_form_urlencoded_cons, IH. reflexivity.
Qed.

Section More.

Variable sha256_hex : string -> string.

(** X1.  [generate_pkce] always returns: a verifier of 64 characters and a
    state of 32, made of 32 and 16 fresh bytes of entropy, with the
    challenge the digest of the verifier; it uses up 48 bytes and sends
    nothing. *)
Theorem generate_pkce_shape w :
  exists verifier challenge state w',
    generate_pkce sha256_hex w = (Ret (verifier, challenge, state), w') /\
    String.length verifier = 64%nat /\
    String.length state = 32%nat /\
    challenge = sha256_hex verifier /\
    unhex verifier = Some (drawn w (rng_pos w) 32) /\
    unhex state = Some (drawn w (rng_pos w + 32) 16) /\
    rng_pos w' = (rng_pos w + 48)%nat /\
    trace w' = trace w /\ sent w' = sent w /\ token_file w' = token_file w.
Proof.
  eexists. eexists. eexists. eexists.
  split; [apply MinimaxFacts.generate_pkce_eq |].
  rewrite !hex_length, !unhex_hex. unfold drawn.
  rewrite !length_map, !length_seq. cbn [after_pkce rng_pos trace sent token_file].
  repeat split. lia.
Qed.

(** X5.  A region that is not in the table makes the login raise
    [KeyError] at once: nothing is sent, no entropy is drawn, the world is
    as it was. *)
Theorem login_minimax_unknown_region fuel r w :
  r <> "cn"%string -> r <> "global"%string ->
  login_minimax sha256_hex fuel (JStr r) w = (Exc (KeyError (JStr r)), w).
Proof.
  intros H1 H2. apply MinimaxFacts.login_minimax_unconfigured.
  unfold config_for, lift, raise. cbn [config_lookup MINIMAX_OAUTH_CONFIG].
  apply String.eqb_neq in H1, H2.
  rewrite (String.eqb_sym "cn" r), H1, (String.eqb_sym "global" r), H2.
  reflexivity.
Qed.

Lemma login_same_store fuel region w :
  same_store w (snd (login_minimax sha256_hex fuel region w)).
Proof.
  destruct (MinimaxFacts.config_for_cases region w)
    as [(r & c & -> & Hc) | (e & He)].
  - rewrite (MinimaxFacts.login_minimax_eq sha256_hex fuel r c w Hc).
    repeat split.
  - rewrite (MinimaxFacts.login_minimax_unconfigured sha256_hex fuel region e w He).
    apply MinimaxFacts.same_store_refl.
Qed.

(** X6.  A login attempt never touches the token file, whatever its
    outcome and however long it polls, nor the provider or the entropy
    source. *)
Theorem login_minimax_leaves_token_file fuel region w :
  token_file (snd (login_minimax sha256_hex fuel region w)) = token_file w /\
  server (snd (login_minimax sha256_hex fuel region w)) = server w /\
  rng (snd (login_minimax sha256_hex fuel region w)) = rng w.
Proof. exact (login_same_store fuel region w). Qed.

(** X7.  Whatever the provider answers to the initiate request -- a
    refusal or an acceptance, JSON or not -- the login in a configured
    region raises [AttributeError] at [response.ok], right after that one
    request (and the transport error when the request itself fails): the
    response's status, text and payload are never read, no credential is
    returned, and the login neither sleeps nor polls. *)
Theorem login_minimax_stops_at_response_ok fuel r c w :
  config_lookup MINIMAX_OAUTH_CONFIG r = Some c ->
  let out := fst (login_minimax sha256_hex fuel (JStr r) w) in
  let w' := snd (login_minimax sha256_hex fuel (JStr r) w) in
  (forall l ok t body,
     server w (sent w) = Resp l ok t body -> out = Exc AttributeError) /\
  (forall l, server w (sent w) = NetDown l -> out = Exc TransportError) /\
  trace w' =
    trace w ++
    [EvPost (code_request c (sha256_hex (hex (drawn w (rng_pos w) 32)))
                          (hex (drawn w (rng_pos w + 32) 16)))] /\
  sent w' = S (sent w) /\
  rng_pos w' = (rng_pos w + 48)%nat.
Proof.
  intros Hc. cbv zeta.
  rewrite (MinimaxFacts.login_minimax_eq sha256_hex fuel r c w Hc).
  cbn [fst snd after_post after_pkce trace sent rng_pos].
  split; [intros l ok t body ->; reflexivity |].
  split; [intros l ->; reflexivity |].
  repeat split. lia.
Qed.

Ltac token_steps :=
  unfold get_minimax_access_token, bind, token_file_exists, load_token_file,
    getitem, MiniMaxOAuthToken_init, number, time, lift, ret, raise;
  cbn.

(** X10.  A token file that is there but cannot be used -- unreadable, not
    a JSON object, or without one of the fields [access], [refresh],
    [expires] -- makes the call raise at once: no request is sent, there is
    no fall-back to a login, and the world is as it was. *)
Theorem unusable_token_file_raises fuel w :
  (token_file w = Unreadable \/
   (exists j, token_file w = Stored j /\ forall fields, j <> JObj fields) \/
   (exists fields k,
      token_file w = Stored (JObj fields) /\
      In k ["access"; "refresh"; "expires"]%string /\
      lookup fields k = None)) ->
  exists e, get_minimax_access_token sha256_hex fuel false w = (Exc e, w).
Proof.
  intros [Hf | [(j & Hf & Hj) | (fields & k & Hf & Hk & Hnone)]].
  - eexists. token_steps. repeat (rewrite ?Hf; cbn). reflexivity.
  - destruct j as [| b | q | s | its | fields];
      try (eexists; token_steps; repeat (rewrite ?Hf; cbn); reflexivity).
    exfalso. apply (Hj fields). reflexivity.
  - destruct (lookup fields "access") as [a |] eqn:Ha.
    2:{ eexists. token_steps. repeat (rewrite ?Hf, ?Ha; cbn). reflexivity. }
    destruct (lookup fields "refresh") as [r |] eqn:Hr.
    2:{ eexists. token_steps. repeat (rewrite ?Hf, ?Ha, ?Hr; cbn).
        reflexivity. }
    destruct (lookup fields "expires") as [e |] eqn:He.
    2:{ eexists. token_steps. repeat (rewrite ?Hf, ?Ha, ?Hr, ?He; cbn).
        reflexivity. }
    exfalso. cbn in Hk.
    destruct Hk as [<- | [<- | [<- | []]]]; congruence.
Qed.

(** X11.  A credential that the expiry test finds expired is never
    renewed.  The call sends the one refresh request, to the endpoint of
    the region the credential records ("cn" when it records none) and with
    the stored refresh token; whatever the provider answers, the attempt
    raises at [response.ok]; the call goes on with the initiate request of
    a login in region "cn" and raises in its turn.  The token file is as
    it was. *)
Theorem expired_credential_is_never_renewed fuel w fields tok r c :
  stored_expired w fields tok ->
  stored_region fields = JStr r ->
  config_lookup MINIMAX_OAUTH_CONFIG r = Some c ->
  let out := fst (get_minimax_access_token sha256_hex fuel false w) in
  let w' := snd (get_minimax_access_token sha256_hex fuel false w) in
  (out = Exc AttributeError \/ out = Exc TransportError) /\
  trace w' =
    trace w ++
    [EvPost (refresh_request c (refresh tok));
     EvPost (code_request cn (sha256_hex (hex (drawn w (rng_pos w) 32)))
                          (hex (drawn w (rng_pos w + 32) 16)))] /\
  sent w' = S (S (sent w)) /\
  token_file w' = token_file w.
Proof.
  intros Hexp Hreg Hc. cbv zeta.
  rewrite (MinimaxFacts.get_token_expired sha256_hex fuel w fields tok Hexp).
  rewrite (MinimaxFacts.refresh_and_store_known tok fields w r c Hreg Hc).
  assert (E : forall w1,
    match (ok_verdict (server w (sent w)), w1) with
    | (Ret v, w2) => (Ret v, w2)
    | (Exc _, w2) => login_and_store sha256_hex fuel w2
    | (Fuel, w2) => (Fuel, w2)
    end = login_and_store sha256_hex fuel w1).
  { intros w1.
    destruct (MinimaxFacts.ok_verdict_raises (server w (sent w))) as [-> | ->];
      reflexivity. }
  rewrite E, MinimaxFacts.login_and_store_eq.
  cbn [fst snd after_post after_pkce trace sent rng rng_pos token_file server
       drawn].
  split; [apply MinimaxFacts.ok_verdict_raises |].
  rewrite <- app_assoc. repeat split.
Qed.

(** X12.  An expired credential that records a region the table does not
    have never gets a refresh request: the attempt raises [KeyError] before
    anything is sent, and the call goes on with a login in region "cn". *)
Theorem unknown_stored_region_skips_refresh fuel w fields tok r :
  stored_expired w fields tok ->
  lookup fields "region" = Some (JStr r) ->
  config_lookup MINIMAX_OAUTH_CONFIG r = None ->
  exists uc ds,
    trace (snd (get_minimax_access_token sha256_hex fuel false w)) =
      trace w ++
      EvPost (code_request cn (sha256_hex (hex (drawn w (rng_pos w) 32)))
                           (hex (drawn w (rng_pos w + 32) 16))) ::
      poll_events (poll_request cn uc (hex (drawn w (rng_pos w + 48) 32))) ds.
Proof.
  intros Hexp Hreg Hc.
  rewrite (MinimaxFacts.get_token_expired sha256_hex fuel w fields tok Hexp).
  rewrite (MinimaxFacts.refresh_and_store_unknown tok fields w
             (KeyError (JStr r))).
  - rewrite MinimaxFacts.login_and_store_eq. exists JNull, []. reflexivity.
  - unfold stored_region. rewrite Hreg. unfold config_for. rewrite Hc.
    reflexivity.
Qed.

(** X13.  A call that does not return leaves the token file as it was:
    the file is written only with the record of a refresh or of a login
    that went through. *)
Theorem failed_call_keeps_token_file fuel force w :
  (forall v, fst (get_minimax_access_token sha256_hex fuel force w) <> Ret v) ->
  token_file (snd (get_minimax_access_token sha256_hex fuel force w))
    = token_file w.
Proof.
  intros _.
  destruct (MinimaxFacts.get_token_run sha256_hex fuel force w)
    as [(e & Hrun) | [(a & _ & _ & Hrun) | (_ & Hst & _)]];
    cbv zeta in *.
  - rewrite Hrun. reflexivity.
  - rewrite Hrun. reflexivity.
  - apply Hst.
Qed.

End More.

End MinimaxMore.

(** * More of the Feishu channel *)

Module FeishuMore.
Import Feishu.
Local Open Scope list_scope.

Section More.

Variable json_loads : string -> option json.
Variable tempdir : string.

(** What [_download_file] can do: raise before any call, or make its one
    call and return nothing, or make it, write the file and return its
    path. *)
Lemma download_cases mid fk rt fn w :
  (exists e, _download_file tempdir mid fk rt fn w = (inl e, w)) \/
  (exists w1,
     _download_file tempdir mid fk rt fn w = (inr None, w1) /\
     log w1 = log w ++ [Called (ResourceGet mid fk rt) (sdk w (calls w))] /\
     calls w1 = S (calls w) /\ on_disk w1 = on_disk w) \/
  (exists p w1,
     _download_file tempdir mid fk rt fn w = (inr (Some p), w1) /\
     log w1 = log w ++ [Called (ResourceGet mid fk rt) (sdk w (calls w));
                        Wrote p] /\
     calls w1 = S (calls w) /\ on_disk w1 p = true /\ writable w p = true).
Proof.
  unfold _download_file.
  set (named := if negb (truthy fn) then _ else _).
  destruct named as [e | name]; [left; eauto |].
  unfold call_sdk.
  destruct (sdk w (calls w)) as [| [|] payload] eqn:Hr.
  - right; left. eexists. repeat split.
  - cbn [writable].
    destruct (writable w (path_join (path_join tempdir "nanobot_downloads")
                            name)) eqn:Hw.
    + right; right. eexists. eexists. split; [reflexivity |].
      cbn [write_file log calls on_disk]. rewrite <- app_assoc.
      rewrite String.eqb_refl. repeat split. exact Hw.
    + right; left. eexists. repeat split.
  - right; left. eexists. repeat split.
Qed.

(** What the [try] block of the callback can arrive at. *)
Lemma decode_cases mid t c w :
  let d := fst (decode_content json_loads tempdir mid t c w) in
  let w1 := snd (decode_content json_loads tempdir mid t c w) in
  (calls w1 <= S (calls w))%nat /\
  ((d = inl tt /\ w1 = w) \/
   (exists text, d = inr (text, []) /\ on_disk w1 = on_disk w) \/
   (exists text p,
      d = inr (text, [p]) /\ on_disk w1 p = true /\ In (Wrote p) (log w1))).
Proof.
  cbv zeta. unfold decode_content.
  destruct (json_loads c) as [[| b | q | s | its | fields] |];
    try (cbn [fst snd]; split; [lia | left; split; reflexivity]).
  set (sel := if String.eqb t "image" then _ else _).
  destruct sel as [[fk fn] [rt |]].
  2:{ cbn [fst snd]. split; [lia |]. right; left. eauto. }
  destruct (truthy fk).
  2:{ cbn [fst snd]. split; [lia |]. right; left. eauto. }
  destruct (download_cases mid fk rt fn w)
    as [(e & ->) | [(w1 & -> & Hl & Hc & Hd)
                    | (p & w1 & -> & Hl & Hc & Hd & _)]];
    cbn [fst snd].
  - split; [lia |]. left. split; reflexivity.
  - split; [lia |]. right; left. eauto.
  - split; [lia |]. right; right. eexists. eexists.
    split; [reflexivity |]. split; [exact Hd |].
    rewrite Hl. apply in_or_app. right. cbn. auto.
Qed.

Lemma strip_mention_string s :
  strip_mention (JStr s) = inr (without_mention (JStr s)).
Proof. cbn. destruct (contains "@_all" s); reflexivity. Qed.

(** X16.  A payload that does not decode to a JSON object (it is not JSON,
    or it is a list, a string, a number, ...) is not lost: for an allowed
    sender the callback forwards the raw payload string as content, with
    the broadcast mention taken out, no media, and without any SDK call. *)
Theorem undecodable_payload_is_forwarded_raw is_allowed ev w :
  (forall fields, json_loads (ev_content ev) <> Some (JObj fields)) ->
  is_allowed (ev_sender_open_id ev) = true ->
  do_p2_im_message_receive_v1 json_loads is_allowed tempdir ev w =
  (Forwarded
     (mkInbound (ev_sender_open_id ev) (ev_chat_id ev)
        (without_mention (JStr (ev_content ev)))
        [("message_id", ev_message_id ev); ("chat_id", ev_chat_id ev);
         ("msg_type", ev_message_type ev);
         ("sender_id", ev_sender_open_id ev)]%string
        []),
   w).
Proof.
  intros Hno Hallow. unfold do_p2_im_message_receive_v1.
  assert (E : decode_content json_loads tempdir (ev_message_id ev)
                (ev_message_type ev) (ev_content ev) w = (inl tt, w)).
  { unfold decode_content.
    destruct (json_loads (ev_content ev)) as [[| b | q | s | its | fields] |];
      try reflexivity.
    exfalso. apply (Hno fields). reflexivity. }
  rewrite E, strip_mention_string, Hallow. reflexivity.
Qed.

(** X17.  An image event without text whose download succeeds, the SDK
    answering with success and the path being one that can be written:
    the file is written under the download directory as
    [<image_key>.jpg], that path is the one media item of the forwarded
    message, and the content is the placeholder "[image] file". *)
Theorem image_event_is_downloaded is_allowed ev w fields k payload :
  ev_message_type ev = "image"%string ->
  json_loads (ev_content ev) = Some (JObj fields) ->
  lookup fields "text" = None ->
  lookup fields "image_key" = Some (JStr k) ->
  k <> EmptyString ->
  sdk w (calls w) = SdkResponse true payload ->
  writable w (path_join (path_join tempdir "nanobot_downloads")
                        (k ++ ".jpg")%string) = true ->
  is_allowed (ev_sender_open_id ev) = true ->
  let path := path_join (path_join tempdir "nanobot_downloads")
                        (k ++ ".jpg")%string in
  exists m w',
    do_p2_im_message_receive_v1 json_loads is_allowed tempdir ev w
      = (Forwarded m, w') /\
    in_media m = [path] /\
    in_content m = JStr "[image] file" /\
    log w' = log w ++
             [Called (ResourceGet (ev_message_id ev) (JStr k) "image")
                     (SdkResponse true payload);
              Wrote path] /\
    on_disk w' path = true.
Proof.
  intros Ht Hj Htext Hkey Hk Hr Hw Hallow. cbv zeta.
  unfold do_p2_im_message_receive_v1, decode_content.
  rewrite Hj, Ht, Htext. cbn [String.eqb Ascii.eqb Bool.eqb andb].
  unfold field. rewrite Hkey.
  assert (Htr : truthy (JStr k) = true).
  { cbn. apply String.eqb_neq in Hk. rewrite Hk. reflexivity. }
  rewrite Htr. unfold _download_file. cbn [truthy negb].
  cbn [String.eqb Ascii.eqb Bool.eqb andb].
  unfold call_sdk. rewrite Hr. cbn [writable]. rewrite Hw.
  cbn [truthy String.eqb negb].
  cbn [strip_mention].
  change (contains "@_all" ("[" ++ "image" ++ "] " ++ "file")%string) with false.
  cbv iota. rewrite Hallow.
  eexists. eexists. split; [reflexivity |].
  cbn [in_media in_content write_file log on_disk].
  rewrite <- app_assoc, String.eqb_refl. repeat split.
Qed.

(** X18.  A media event whose download does not go through (the SDK
    raises or answers without success) is still forwarded to an allowed
    sender's handler: without media, with the text of the payload as
    content, and with nothing written to disk. *)
Theorem failed_download_drops_the_media is_allowed ev w fields k s :
  ev_message_type ev = "image"%string ->
  json_loads (ev_content ev) = Some (JObj fields) ->
  text_field fields = JStr s ->
  lookup fields "image_key" = Some (JStr k) ->
  k <> EmptyString ->
  (forall payload, sdk w (calls w) <> SdkResponse true payload) ->
  is_allowed (ev_sender_open_id ev) = true ->
  exists m w',
    do_p2_im_message_receive_v1 json_loads is_allowed tempdir ev w
      = (Forwarded m, w') /\
    in_media m = [] /\
    in_content m = without_mention (JStr s) /\
    log w' = log w ++
             [Called (ResourceGet (ev_message_id ev) (JStr k) "image")
                     (sdk w (calls w))] /\
    on_disk w' = on_disk w.
Proof.
  intros Ht Hj Htext Hkey Hk Hr Hallow.
  unfold do_p2_im_message_receive_v1, decode_content.
  rewrite Hj, Ht. cbn [String.eqb Ascii.eqb Bool.eqb andb].
  unfold text_field in Htext. rewrite Htext.
  unfold field. rewrite Hkey.
  assert (Htr : truthy (JStr k) = true).
  { cbn. apply String.eqb_neq in Hk. rewrite Hk. reflexivity. }
  rewrite Htr. unfold _download_file. cbn [truthy negb].
  cbn [String.eqb Ascii.eqb Bool.eqb andb].
  unfold call_sdk.
  destruct (sdk w (calls w)) as [| [|] payload] eqn:Hreply.
  - rewrite strip_mention_string, Hallow.
    eexists. eexists. split; [reflexivity |]. repeat split.
  - exfalso. apply (Hr payload). reflexivity.
  - rewrite strip_mention_string, Hallow.
    eexists. eexists. split; [reflexivity |]. repeat split.
Qed.

(** X25.  So is a media event whose resource the SDK hands over but whose
    file cannot be written: [open] raises inside the [try] of the
    download, the message is forwarded without media and with the text of
    the payload, and nothing is written. *)
Theorem unwritable_download_drops_the_media
    is_allowed ev w fields k s payload :
  ev_message_type ev = "image"%string ->
  json_loads (ev_content ev) = Some (JObj fields) ->
  text_field fields = JStr s ->
  lookup fields "image_key" = Some (JStr k) ->
  k <> EmptyString ->
  sdk w (calls w) = SdkResponse true payload ->
  writable w (path_join (path_join tempdir "nanobot_downloads")
                        (k ++ ".jpg")%string) = false ->
  is_allowed (ev_sender_open_id ev) = true ->
  exists m w',
    do_p2_im_message_receive_v1 json_loads is_allowed tempdir ev w
      = (Forwarded m, w') /\
    in_media m = [] /\
    in_content m = without_mention (JStr s) /\
    log w' = log w ++
             [Called (ResourceGet (ev_message_id ev) (JStr k) "image")
                     (SdkResponse true payload)] /\
    on_disk w' = on_disk w.
Proof.
  intros Ht Hj Htext Hkey Hk Hr Hw Hallow.
  unfold do_p2_im_message_receive_v1, decode_content.
  rewrite Hj, Ht. cbn [String.eqb Ascii.eqb Bool.eqb andb].
  unfold text_field in Htext. rewrite Htext.
  unfold field. rewrite Hkey.
  assert (Htr : truthy (JStr k) = true).
  { cbn. apply String.eqb_neq in Hk. rewrite Hk. reflexivity. }
  rewrite Htr. unfold _download_file. cbn [truthy negb].
  cbn [String.eqb Ascii.eqb Bool.eqb andb].
  unfold call_sdk. rewrite Hr. cbn [writable]. rewrite Hw.
  rewrite strip_mention_string, Hallow.
  eexists. eexists. split; [reflexivity |]. repeat split.
Qed.

(** The effects of the callback are those of its [try] block. *)
Lemma handler_world is_allowed ev w :
  snd (do_p2_im_message_receive_v1 json_loads is_allowed tempdir ev w) =
  snd (decode_content json_loads tempdir (ev_message_id ev)
         (ev_message_type ev) (ev_content ev) w).
Proof.
  unfold do_p2_im_message_receive_v1.
  destruct (decode_content json_loads tempdir (ev_message_id ev)
              (ev_message_type ev) (ev_content ev) w) as [[[] | [text media]] w1];
    cbn [snd];
    match goal with
    | |- snd (match strip_mention ?t with _ => _ end) = _ =>
        destruct (strip_mention t)
    end;
    try reflexivity;
    destruct (is_allowed (ev_sender_open_id ev)); reflexivity.
Qed.

Lemma handler_forwarded is_allowed ev w m w' :
  do_p2_im_message_receive_v1 json_loads is_allowed tempdir ev w
    = (Forwarded m, w') ->
  is_allowed (ev_sender_open_id ev) = true /\
  (in_media m = [] \/
   exists text,
     fst (decode_content json_loads tempdir (ev_message_id ev)
            (ev_message_type ev) (ev_content ev) w) = inr (text, in_media m)).
Proof.
  unfold do_p2_im_message_receive_v1.
  destruct (decode_content json_loads tempdir (ev_message_id ev)
              (ev_message_type ev) (ev_content ev) w) as [[[] | [text media]] w1];
    cbn [fst];
    match goal with
    | |- match strip_mention ?t with _ => _ end = _ -> _ =>
        destruct (strip_mention t); [discriminate |]
    end;
    (destruct (is_allowed (ev_sender_open_id ev)); [| discriminate]);
    intros H; injection H as <- <-; cbn [in_media];
    (split; [reflexivity |]); [left; reflexivity | right; eauto].
Qed.

(** X19.  The download directory is not enforced: for a file event whose
    [file_name] is an absolute path that can be written, a successful
    download writes the file at exactly that path. *)
Theorem absolute_file_name_escapes_download_dir
    is_allowed ev w fields k n payload :
  ev_message_type ev = "file"%string ->
  json_loads (ev_content ev) = Some (JObj fields) ->
  lookup fields "file_key" = Some (JStr k) ->
  k <> EmptyString ->
  lookup fields "file_name" = Some (JStr n) ->
  String.prefix "/" n = true ->
  sdk w (calls w) = SdkResponse true payload ->
  writable w n = true ->
  let w' := snd (do_p2_im_message_receive_v1 json_loads is_allowed tempdir
                   ev w) in
  log w' = log w ++ [Called (ResourceGet (ev_message_id ev) (JStr k) "file")
                            (SdkResponse true payload);
                     Wrote n] /\
  on_disk w' n = true.
Proof.
  intros Ht Hj Hkey Hk Hname Habs Hr Hw. cbv zeta.
  rewrite handler_world. unfold decode_content.
  rewrite Hj, Ht. cbn [String.eqb Ascii.eqb Bool.eqb andb].
  unfold field. rewrite Hkey, Hname.
  assert (Hkt : truthy (JStr k) = true).
  { cbn. apply String.eqb_neq in Hk. rewrite Hk. reflexivity. }
  assert (Hnt : truthy (JStr n) = true).
  { destruct n; [discriminate Habs | reflexivity]. }
  assert (Hpath : path_join (path_join tempdir "nanobot_downloads") n = n).
  { unfold path_join at 1. rewrite Habs. reflexivity. }
  rewrite Hkt. unfold _download_file. rewrite Hnt. cbn [negb].
  rewrite Hpath.
  unfold call_sdk. rewrite Hr. cbn [writable]. rewrite Hw.
  cbn [snd write_file log on_disk].
  rewrite <- app_assoc, String.eqb_refl. split; reflexivity.
Qed.

(** X20.  The allow-list gates the forwarding and nothing else: a sender
    that is not allowed is never forwarded, yet the download of the
    event's media has happened all the same -- the SDK calls and the files
    written do not depend on the allow-list. *)
Theorem allow_list_gates_forwarding_only allowed allowed' ev w :
  snd (do_p2_im_message_receive_v1 json_loads allowed tempdir ev w) =
  snd (do_p2_im_message_receive_v1 json_loads allowed' tempdir ev w) /\
  (allowed (ev_sender_open_id ev) = false ->
   forall m,
     fst (do_p2_im_message_receive_v1 json_loads allowed tempdir ev w)
       <> Forwarded m).
Proof.
  split; [rewrite !handler_world; reflexivity |].
  intros Hno m H.
  destruct (do_p2_im_message_receive_v1 json_loads allowed tempdir ev w)
    as [h w'] eqn:E.
  cbn [fst] in H. subst h.
  apply handler_forwarded in E. destruct E as [E _]. congruence.
Qed.

(** X21.  One event costs at most one SDK call, and a forwarded message
    carries at most one media path, which is then a file this event wrote
    to disk. *)
Theorem forwarded_media_is_on_disk is_allowed ev w m w' :
  do_p2_im_message_receive_v1 json_loads is_allowed tempdir ev w
    = (Forwarded m, w') ->
  (calls w' <= S (calls w))%nat /\
  (in_media m = [] \/
   exists p, in_media m = [p] /\ on_disk w' p = true /\ In (Wrote p) (log w')).
Proof.
  intros H.
  assert (Hw : w' = snd (decode_content json_loads tempdir (ev_message_id ev)
                           (ev_message_type ev) (ev_content ev) w)).
  { rewrite <- handler_world with (is_allowed := is_allowed). rewrite H.
    reflexivity. }
  destruct (handler_forwarded _ _ _ _ _ H) as [_ Hm].
  destruct (decode_cases (ev_message_id ev) (ev_message_type ev)
              (ev_content ev) w) as [Hcalls Hcases].
  cbv zeta in *. rewrite <- Hw in *.
  split; [exact Hcalls |].
  destruct Hm as [Hm | (text & Hd)]; [left; exact Hm |].
  rewrite Hd in Hcases.
  destruct Hcases as [[Hc _] | [(t & Hc & _) | (t & p & Hc & Hdisk & Hlog)]].
  - discriminate.
  - injection Hc as _ Hmed. left. exact Hmed.
  - injection Hc as _ Hmed. right. exists p. auto.
Qed.

(** An event that names no resource -- a text message, a message of any
    other tag without a key, a media tag whose key is missing or empty --
    is not downloaded: the [try] block reads the text field and touches
    nothing. *)
Lemma decode_content_no_resource mid t c fields w :
  json_loads c = Some (JObj fields) ->
  truthy (resource_key t fields) = false ->
  decode_content json_loads tempdir mid t c w
  = (inr (text_field fields, []), w).
Proof.
  intros Hj Hk. unfold decode_content. rewrite Hj.
  unfold resource_key in Hk. cbn [existsb] in Hk. unfold text_field.
  destruct (String.eqb t "image"); [rewrite Hk; reflexivity |].
  destruct (String.eqb t "file"); [cbn [orb] in Hk; rewrite Hk; reflexivity |].
  destruct (String.eqb t "media"); [cbn [orb] in Hk; rewrite Hk; reflexivity |].
  destruct (String.eqb t "audio"); [cbn [orb] in Hk; rewrite Hk; reflexivity |].
  reflexivity.
Qed.

(** X24.  For an event without media -- one that names no resource to
    download, whatever its tag -- a payload whose [text] is null, a boolean
    or a number makes the callback raise [TypeError] at the mention test:
    nothing is forwarded, whoever the sender is. *)
Theorem scalar_text_makes_the_callback_raise is_allowed ev w fields :
  json_loads (ev_content ev) = Some (JObj fields) ->
  truthy (resource_key (ev_message_type ev) fields) = false ->
  (text_field fields = JNull \/
   (exists b, text_field fields = JBool b) \/
   (exists q, text_field fields = JNum q)) ->
  do_p2_im_message_receive_v1 json_loads is_allowed tempdir ev w
    = (Raised TypeError, w).
Proof.
  intros Hj Hr Ht. unfold do_p2_im_message_receive_v1.
  rewrite (decode_content_no_resource _ _ _ fields w Hj Hr).
  destruct Ht as [-> | [(b & ->) | (q & ->)]]; reflexivity.
Qed.

Lemma send_item_calls chat p w :
  (calls w <= calls (send_item chat p w) <= calls w + 2)%nat /\
  on_disk (send_item chat p w) = on_disk w /\
  sdk (send_item chat p w) = sdk w.
Proof.
  unfold send_item, _upload_image, _upload_file, call_sdk.
  destruct (String.eqb (message_kind p) "image");
    (destruct (on_disk w p); cbn [negb]).
  all: try (cbn; repeat split; first [lia | reflexivity]).
  all: destruct (sdk w (calls w)) as [| [|] k].
  all: try (cbn; repeat split; first [lia | reflexivity]).
  all: destruct (truthy k).
  all: try (cbn; repeat split; first [lia | reflexivity]).
Qed.

Lemma send_media_calls chat paths : forall w,
  (calls w <= calls (send_media chat paths w)
   <= calls w + 2 * length paths)%nat /\
  on_disk (send_media chat paths w) = on_disk w /\
  sdk (send_media chat paths w) = sdk w.
Proof.
  induction paths as [| p ps IH]; intros w.
  - cbn. repeat split; first [lia | reflexivity].
  - cbn [send_media length].
    destruct (IH (send_item chat p w)) as (Hc & Hd & Hs).
    destruct (send_item_calls chat p w) as (Hc1 & Hd1 & Hs1).
    rewrite Hd, Hs, Hd1, Hs1. repeat split; first [lia | reflexivity].
Qed.

(** X22.  The budget of [send]: at most one SDK call for the text and two
    per media item, none at all when the channel is not started or when
    the message has neither text nor media; [send] never changes what is
    on disk. *)
Theorem send_call_budget api_client lark_installed msg w :
  let w' := send api_client lark_installed msg w in
  (calls w <= calls w' <= calls w + 1 + 2 * length (media msg))%nat /\
  on_disk w' = on_disk w /\
  (api_client = false \/ lark_installed = false \/
   (content msg = EmptyString /\ media msg = []) -> w' = w).
Proof.
  cbv zeta. unfold send.
  destruct api_client; cbn [negb].
  2:{ repeat split; first [lia | reflexivity]. }
  destruct lark_installed; cbn [negb].
  2:{ repeat split; first [lia | reflexivity]. }
  split; [| split].
  - destruct (String.eqb (content msg) EmptyString); cbn [negb].
    + destruct (send_media_calls (chat_id msg) (media msg) w) as (Hc & _).
      lia.
    + destruct (send_media_calls (chat_id msg) (media msg)
                  (snd (call_sdk (MessageCreate (chat_id msg) "text"
                                    (JObj [("text", JStr (content msg))])) w)))
        as (Hc & _).
      cbn [call_sdk snd calls] in Hc |- *. lia.
  - destruct (String.eqb (content msg) EmptyString); cbn [negb].
    + apply send_media_calls.
    + destruct (send_media_calls (chat_id msg) (media msg)
                  (snd (call_sdk (MessageCreate (chat_id msg) "text"
                                    (JObj [("text", JStr (content msg))])) w)))
        as (_ & Hd & _).
      rewrite Hd. reflexivity.
  - intros [H | [H | [Hc Hm]]]; try discriminate.
    rewrite Hc, Hm. reflexivity.
Qed.

End More.

Lemma lower_app a b : lower (a ++ b) = (lower a ++ lower b)%string.
Proof. induction a as [| c a IH]; cbn; [reflexivity | rewrite IH; reflexivity]. Qed.

Lemma prefix_char c d rest :
  String.prefix (String c EmptyString) (String d rest) = Ascii.eqb c d.
Proof.
  cbn. destruct (ascii_dec c d) as [-> | Hne].
  - rewrite Ascii.eqb_refl. destruct rest; reflexivity.
  - symmetry. apply Ascii.eqb_neq. exact Hne.
Qed.

Lemma contains_char_cons c d rest :
  contains (String c EmptyString) (String d rest) =
  Ascii.eqb c d || contains (String c EmptyString) rest.
Proof.
  change (contains (String c EmptyString) (String d rest))
    with (if String.prefix (String c EmptyString) (String d rest) then true
          else contains (String c EmptyString) rest).
  rewrite prefix_char. destruct (Ascii.eqb c d); reflexivity.
Qed.

Lemma contains_char_app c s e :
  contains (String c EmptyString) (s ++ String c e) = true.
Proof.
  induction s as [| d s IH]; cbn [append]; rewrite contains_char_cons.
  - rewrite Ascii.eqb_refl. reflexivity.
  - rewrite IH. apply orb_true_r.
Qed.

(** [split(sep)[-1]] gives back a last part that holds no separator. *)
Lemma after_last_app sep s e :
  contains (String sep EmptyString) e = false ->
  after_last sep (s ++ String sep e) = e.
Proof.
  intros He. induction s as [| d s IH]; cbn [append after_last].
  - rewrite Ascii.eqb_refl, He. reflexivity.
  - rewrite contains_char_app. cbn [negb]. rewrite andb_false_r. exact IH.
Qed.

Lemma lower_char_dot c :
  Ascii.eqb "." (lower_char c) = Ascii.eqb "." c.
Proof. destruct c as [[] [] [] [] [] [] [] []]; reflexivity. Qed.

Lemma contains_dot_lower e :
  contains "." (lower e) = contains "." e.
Proof.
  induction e as [| c e IH]; [reflexivity |].
  cbn [lower]. rewrite !contains_char_cons, lower_char_dot, IH. reflexivity.
Qed.

(** X23.  The kind of an outbound media item depends only on what follows
    the last dot of the path, compared without regard to case: "image"
    for jpg, jpeg, png and gif, "file" for anything else and for a path
    without a dot. *)
Theorem message_kind_by_extension s e :
  contains "." e = false ->
  message_kind (s ++ "." ++ e) =
    (if existsb (String.eqb (lower e)) ["jpg"; "jpeg"; "png"; "gif"]%string
     then "image" else "file")%string /\
  message_kind e = "file"%string.
Proof.
  intros He. unfold message_kind. split.
  - change ("." ++ e)%string with (String "." e).
    rewrite contains_char_app, lower_app. cbn [lower].
    change (lower_char ".") with "."%char.
    rewrite after_last_app by (rewrite contains_dot_lower; exact He).
    reflexivity.
  - rewrite He. reflexivity.
Qed.

End FeishuMore.

(** * More concrete runs *)

Module MoreRuns.
Import Minimax Scenario.
Local Open Scope list_scope.

Lemma to_form_urlencoded_app_witness :
  to_form_urlencoded ([("grant_type", "refresh_token")] ++
                      [("client_id", "c"); ("refresh_token", "R")]) =
  "grant_type=refresh_token&client_id=c&refresh_token=R".
Proof.
  apply (MinimaxMore.to_form_urlencoded_app
           [("grant_type", "refresh_token")]
           [("client_id", "c"); ("refresh_token", "R")]);
    try discriminate.
  repeat constructor; cbn; intuition discriminate.
Defined.

Lemma login_minimax_unknown_region_witness :
  login_minimax Sha256.hexdigest 5 (JStr "us") w_login
  = (Exc (KeyError (JStr "us")), w_login).
Proof.
  apply (MinimaxMore.login_minimax_unknown_region Sha256.hexdigest 5 "us"
           w_login); discriminate.
Defined.

Lemma login_minimax_stops_at_response_ok_witness :
  fst (login_minimax Sha256.hexdigest 5 (JStr "cn") w_refused)
    = Exc AttributeError /\
  fst (login_minimax Sha256.hexdigest 5 (JStr "cn") w_login)
    = Exc AttributeError.
Proof.
  split.
  - exact (proj1 (MinimaxMore.login_minimax_stops_at_response_ok
                    Sha256.hexdigest 5 "cn" cn w_refused eq_refl)
                 0 false "unknown client"%string None eq_refl).
  - exact (proj1 (MinimaxMore.login_minimax_stops_at_response_ok
                    Sha256.hexdigest 5 "cn" cn w_login eq_refl)
                 0 true EmptyString
                 (Some (JObj [("verification_uri",
                               JStr "https://example.test/verify");
                              ("user_code", JStr "UC");
                              ("expires_in", JNum 300);
                              ("interval", JNum 2)]))
                 eq_refl).
Defined.

Lemma unusable_token_file_raises_witness :
  exists e,
    get_minimax_access_token Sha256.hexdigest 5 false w_broken
    = (Exc e, w_broken).
Proof.
  apply (MinimaxMore.unusable_token_file_raises Sha256.hexdigest 5 w_broken).
  right; right.
  exists [("access", JStr "A0"); ("expires", JNum 3600)], "refresh"%string.
  split; [reflexivity |]. split; [right; left; reflexivity | reflexivity].
Defined.

Lemma expired_credential_is_never_renewed_witness :
  sent (snd (get_minimax_access_token Sha256.hexdigest 5 false w_lapsed))
    = 2%nat /\
  token_file (snd (get_minimax_access_token Sha256.hexdigest 5 false w_lapsed))
    = token_file w_lapsed.
Proof.
  destruct (MinimaxMore.expired_credential_is_never_renewed Sha256.hexdigest 5
              w_lapsed (credential 30 "global")
              (mkToken (JStr "A0") (JStr "R0") (JNum 30) (0 + 30))
              "global" intl)
    as (_ & _ & Hsent & Hfile); try reflexivity.
  { repeat split. }
  split; [exact Hsent | exact Hfile].
Defined.

Lemma unknown_stored_region_skips_refresh_witness :
  exists uc ds,
    trace (snd (get_minimax_access_token Sha256.hexdigest 5 false
                  w_unknown_region)) =
      trace w_unknown_region ++
      EvPost (code_request cn
                (Sha256.hexdigest
                   (hex (drawn w_unknown_region (rng_pos w_unknown_region) 32)))
                (hex (drawn w_unknown_region
                        (rng_pos w_unknown_region + 32) 16))) ::
      poll_events
        (poll_request cn uc
           (hex (drawn w_unknown_region (rng_pos w_unknown_region + 48) 32)))
        ds.
Proof.
  apply (MinimaxMore.unknown_stored_region_skips_refresh Sha256.hexdigest 5
           w_unknown_region (credential 30 "us")
           (mkToken (JStr "A0") (JStr "R0") (JNum 30) (0 + 30)) "us");
    try reflexivity.
  repeat split.
Defined.

Lemma failed_call_keeps_token_file_witness :
  token_file (snd (get_minimax_access_token Sha256.hexdigest 5 false
                     w_refused))
  = token_file w_refused.
Proof.
  apply (MinimaxMore.failed_call_keeps_token_file Sha256.hexdigest 5 false
           w_refused).
  intros v. vm_compute. discriminate.
Defined.

Lemma undecodable_payload_is_forwarded_raw_witness :
  Feishu.do_p2_im_message_receive_v1 loads_more everyone "/tmp" plain_event
    w_feishu
  = (Feishu.Forwarded
       (Feishu.mkInbound "ou_1" "oc_1" (JStr "not json")
          [("message_id", "om_5"); ("chat_id", "oc_1");
           ("msg_type", "text"); ("sender_id", "ou_1")]%string
          []),
     w_feishu).
Proof.
  apply (FeishuMore.undecodable_payload_is_forwarded_raw loads_more "/tmp"
           everyone plain_event w_feishu).
  - intros fields. vm_compute. discriminate.
  - reflexivity.
Defined.

Lemma image_event_is_downloaded_witness :
  exists m w',
    Feishu.do_p2_im_message_receive_v1 loads_more everyone "/tmp" image_event
      w_granting = (Feishu.Forwarded m, w') /\
    Feishu.in_media m = ["/tmp/nanobot_downloads/k1.jpg"%string] /\
    Feishu.in_content m = JStr "[image] file".
Proof.
  destruct (FeishuMore.image_event_is_downloaded loads_more "/tmp" everyone
              image_event w_granting [("image_key", JStr "k1")] "k1"
              (JStr "bytes"))
    as (m & w' & Hrun & Hmedia & Hcontent & _);
    try reflexivity; try discriminate.
  exists m, w'. split; [exact Hrun |]. split; [exact Hmedia | exact Hcontent].
Defined.

Lemma failed_download_drops_the_media_witness :
  exists m w',
    Feishu.do_p2_im_message_receive_v1 loads_more everyone "/tmp" image_event
      w_feishu = (Feishu.Forwarded m, w') /\
    Feishu.in_media m = [].
Proof.
  destruct (FeishuMore.failed_download_drops_the_media loads_more "/tmp"
              everyone image_event w_feishu [("image_key", JStr "k1")] "k1"
              EmptyString)
    as (m & w' & Hrun & Hmedia & _);
    try reflexivity; try discriminate.
  exists m, w'. split; [exact Hrun | exact Hmedia].
Defined.

Lemma unwritable_download_drops_the_media_witness :
  exists m w',
    Feishu.do_p2_im_message_receive_v1 loads_more everyone "/tmp" image_event
      w_sealed = (Feishu.Forwarded m, w') /\
    Feishu.in_media m = [] /\
    Feishu.on_disk w' = Feishu.on_disk w_sealed.
Proof.
  destruct (FeishuMore.unwritable_download_drops_the_media loads_more "/tmp"
              everyone image_event w_sealed [("image_key", JStr "k1")] "k1"
              EmptyString (JStr "bytes"))
    as (m & w' & Hrun & Hmedia & _ & _ & Hdisk);
    try reflexivity; try discriminate.
  exists m, w'. split; [exact Hrun |]. split; [exact Hmedia | exact Hdisk].
Defined.

Lemma absolute_file_name_escapes_download_dir_witness :
  Feishu.on_disk
    (snd (Feishu.do_p2_im_message_receive_v1 loads_more everyone "/tmp"
            file_event w_granting))
    "/tmp/job.sh" = true.
Proof.
  apply (FeishuMore.absolute_file_name_escapes_download_dir loads_more "/tmp"
           everyone file_event w_granting
           [("file_key", JStr "fk"); ("file_name", JStr "/tmp/job.sh")]
           "fk" "/tmp/job.sh" (JStr "bytes"));
    try reflexivity; try discriminate.
Defined.

Lemma forwarded_media_is_on_disk_witness :
  (Feishu.calls
     (snd (Feishu.do_p2_im_message_receive_v1 loads_more everyone "/tmp"
             image_event w_granting))
   <= 1)%nat.
Proof.
  refine (proj1 (FeishuMore.forwarded_media_is_on_disk loads_more "/tmp"
                   everyone image_event w_granting
                   (Feishu.mkInbound "ou_1" "oc_1" (JStr "[image] file")
                      [("message_id", "om_2"); ("chat_id", "oc_1");
                       ("msg_type", "image"); ("sender_id", "ou_1")]%string
                      ["/tmp/nanobot_downloads/k1.jpg"%string])
                   (snd (Feishu.do_p2_im_message_receive_v1 loads_more
                           everyone "/tmp" image_event w_granting))
                   _)).
  vm_compute. reflexivity.
Defined.

Lemma message_kind_by_extension_witness :
  Feishu.message_kind "/tmp/photo.PNG" = "image"%string.
Proof.
  apply (FeishuMore.message_kind_by_extension "/tmp/photo" "PNG").
  reflexivity.
Defined.

Lemma scalar_text_makes_the_callback_raise_witness :
  Feishu.do_p2_im_message_receive_v1 loads_more everyone "/tmp"
    null_text_event w_feishu
  = (Feishu.Raised TypeError, w_feishu).
Proof.
  apply (FeishuMore.scalar_text_makes_the_callback_raise loads_more "/tmp"
           everyone null_text_event w_feishu [("text", JNull)]);
    try reflexivity.
  left. reflexivity.
Defined.

End MoreRuns.
